(** * rp_handler: a shallow embedding of the ComfyUI serverless worker

    The worker is one Python module, [rp_handler.py].  Its functions are
    embedded here as Rocq functions over

    - [value], the Python values that [json.loads] can produce;
    - [result], a value or a raised exception;
    - [M], a computation that may raise and that appends to a [trace] the
      calls it makes to the outside (HTTP, sleep, filesystem, bucket upload);
    - [World], the answers of the outside to these calls, together with the
      library functions that are used but not defined in the module
      ([json.loads], [base64.b64decode], [repr]).

    [print] calls write to the log only and are left out, except that the
    arguments they evaluate are kept when evaluating them can raise
    ([os.listdir] at line 267). *)

From Stdlib Require Import ZArith List String Ascii Bool DecimalString Lia.
Import ListNotations.
Open Scope string_scope.
Open Scope Z_scope.

Set Warnings "-register-all".

(** ** Python values *)

(** The values of the JSON fragment of Python.  A [dict] keeps its insertion
    order, which [outputs.items()] exposes, so it is an association list; the
    keys of a JSON object are strings.  Numbers are integers: the module never
    computes with the numbers it receives. *)
Inductive value : Type :=
| VNone
| VBool (b : bool)
| VInt (z : Z)
| VStr (s : string)
| VList (l : list value)
| VDict (kvs : list (string * value)).

(** ** Exceptions and results *)

Inductive exn_kind : Type :=
| KeyError | TypeError | AttributeError | IndexError | ValueError
| JSONDecodeError | RecursionError | BinasciiError | OverflowError
| RequestException | URLError | OSError | RuntimeError.

(** An exception has a class and the text that [str(e)] gives. *)
Record exn : Type := Exn { exn_class : exn_kind; exn_str : string }.

Inductive result (A : Type) : Type :=
| Ok (a : A)
| Raise (e : exn).
Arguments Ok {A} a.
Arguments Raise {A} e.

Definition bindR {A B} (r : result A) (k : A -> result B) : result B :=
  match r with
  | Ok a => k a
  | Raise e => Raise e
  end.

Declare Scope result_scope.
Delimit Scope result_scope with res.
Notation "x <- c ;; k" := (bindR c (fun x => k))
  (at level 61, c at next level, right associativity) : result_scope.

Definition exn_kind_eqb (a b : exn_kind) : bool :=
  match a, b with
  | KeyError, KeyError | TypeError, TypeError
  | AttributeError, AttributeError | IndexError, IndexError
  | ValueError, ValueError | JSONDecodeError, JSONDecodeError
  | RecursionError, RecursionError | BinasciiError, BinasciiError
  | OverflowError, OverflowError
  | RequestException, RequestException | URLError, URLError
  | OSError, OSError | RuntimeError, RuntimeError => true
  | _, _ => false
  end.

(** ** Operations of the language on values *)

Module Py.

(** Truth value of an object, as [if x:] and [not x] test it. *)
Definition truthy (v : value) : bool :=
  match v with
  | VNone => false
  | VBool b => b
  | VInt z => negb (z =? 0)
  | VStr s => negb (String.eqb s "")
  | VList l => match l with [] => false | _ => true end
  | VDict kvs => match kvs with [] => false | _ => true end
  end.

Fixpoint dict_lookup (k : string) (kvs : list (string * value)) : option value :=
  match kvs with
  | [] => None
  | (k', v) :: rest => if String.eqb k k' then Some v else dict_lookup k rest
  end.

Definition dict_has (k : string) (kvs : list (string * value)) : bool :=
  match dict_lookup k kvs with Some _ => true | None => false end.

(** [d[k] = v] on a dict: replaces the value of an existing key in place,
    appends a new key. *)
Fixpoint dict_set (k : string) (v : value) (kvs : list (string * value))
  : list (string * value) :=
  match kvs with
  | [] => [(k, v)]
  | (k', v') :: rest =>
      if String.eqb k k' then (k, v) :: rest else (k', v') :: dict_set k v rest
  end.

Definition type_name (v : value) : string :=
  match v with
  | VNone => "NoneType"
  | VBool _ => "bool"
  | VInt _ => "int"
  | VStr _ => "str"
  | VList _ => "list"
  | VDict _ => "dict"
  end.

(** [repr(x)] of [None], a [bool] or an [int]; [str(x)] is the same. *)
Definition scalar_repr (v : value) : string :=
  match v with
  | VNone => "None"
  | VBool true => "True"
  | VBool false => "False"
  | VInt z => NilZero.string_of_int (Z.to_int z)
  | _ => ""
  end.

(** [a == b].  [bool] is a subclass of [int]; two dicts are equal when they
    have the same keys with equal values, in any order. *)
Fixpoint eq (a b : value) {struct a} : bool :=
  match a, b with
  | VNone, VNone => true
  | VBool x, VBool y => Bool.eqb x y
  | VBool x, VInt y => (if x then 1 else 0) =? y
  | VInt x, VBool y => x =? (if y then 1 else 0)
  | VInt x, VInt y => x =? y
  | VStr x, VStr y => String.eqb x y
  | VList xs, VList ys =>
      (fix go (xs ys : list value) {struct xs} : bool :=
         match xs, ys with
         | [], [] => true
         | x :: xs', y :: ys' => eq x y && go xs' ys'
         | _, _ => false
         end) xs ys
  | VDict xs, VDict ys =>
      (List.length xs =? List.length ys)%nat &&
      (fix go (xs : list (string * value)) {struct xs} : bool :=
         match xs with
         | [] => true
         | (k, v) :: xs' =>
             match dict_lookup k ys with
             | Some w => eq v w
             | None => false
             end && go xs'
         end) xs
  | _, _ => false
  end.

Definition is_substring (needle hay : string) : bool :=
  match String.index 0 needle hay with
  | Some _ => true
  | None => false
  end.

(** [x in c]. *)
Definition contains (x c : value) : result bool :=
  match c with
  | VDict kvs =>
      match x with
      | VStr k => Ok (dict_has k kvs)
      | VList _ | VDict _ =>
          Raise (Exn TypeError ("unhashable type: '" ++ type_name x ++ "'"))
      | _ => Ok false
      end
  | VList l => Ok (existsb (fun y => eq x y) l)
  | VStr s =>
      match x with
      | VStr n => Ok (is_substring n s)
      | _ =>
          Raise (Exn TypeError
                   ("'in <string>' requires string as left operand, not "
                      ++ type_name x))
      end
  | _ =>
      Raise (Exn TypeError
               ("argument of type '" ++ type_name c ++ "' is not iterable"))
  end.

Fixpoint string_chars (s : string) : list value :=
  match s with
  | EmptyString => []
  | String c rest => VStr (String c EmptyString) :: string_chars rest
  end.

(** The elements that [for x in c] visits. *)
Definition iter (c : value) : result (list value) :=
  match c with
  | VList l => Ok l
  | VDict kvs => Ok (map (fun kv => VStr (fst kv)) kvs)
  | VStr s => Ok (string_chars s)
  | _ =>
      Raise (Exn TypeError ("'" ++ type_name c ++ "' object is not iterable"))
  end.

(** [c.items()]: only a dict has the method. *)
Definition items (c : value) : result (list (string * value)) :=
  match c with
  | VDict kvs => Ok kvs
  | _ =>
      Raise (Exn AttributeError
               ("'" ++ type_name c ++ "' object has no attribute 'items'"))
  end.

(** [c.get(k)] with a string literal [k]. *)
Definition get (c : value) (k : string) : result value :=
  match c with
  | VDict kvs =>
      Ok (match dict_lookup k kvs with Some v => v | None => VNone end)
  | _ =>
      Raise (Exn AttributeError
               ("'" ++ type_name c ++ "' object has no attribute 'get'"))
  end.

(** Position [i] of a sequence of length [n], negative positions counting
    from the end. *)
Definition seq_index (i : Z) (n : nat) : option nat :=
  let len := Z.of_nat n in
  if (0 <=? i) && (i <? len) then Some (Z.to_nat i)
  else if (i <? 0) && (0 <=? i + len) then Some (Z.to_nat (i + len))
  else None.

Definition int_of_index (k : value) : option Z :=
  match k with
  | VInt i => Some i
  | VBool b => Some (if b then 1 else 0)
  | _ => None
  end.

(** [c[k]]. *)
Definition subscript (c k : value) : result value :=
  match c with
  | VDict kvs =>
      match k with
      | VStr s =>
          match dict_lookup s kvs with
          | Some v => Ok v
          | None => Raise (Exn KeyError ("'" ++ s ++ "'"))
          end
      | VList _ | VDict _ =>
          Raise (Exn TypeError ("unhashable type: '" ++ type_name k ++ "'"))
      | _ => Raise (Exn KeyError (scalar_repr k))
      end
  | VList l =>
      match int_of_index k with
      | Some i =>
          match seq_index i (List.length l) with
          | Some n =>
              match nth_error l n with
              | Some v => Ok v
              | None => Raise (Exn IndexError "list index out of range")
              end
          | None => Raise (Exn IndexError "list index out of range")
          end
      | None =>
          Raise (Exn TypeError
                   ("list indices must be integers or slices, not "
                      ++ type_name k))
      end
  | VStr s =>
      match int_of_index k with
      | Some i =>
          match seq_index i (String.length s) with
          | Some n =>
              match String.get n s with
              | Some ch => Ok (VStr (String ch EmptyString))
              | None => Raise (Exn IndexError "string index out of range")
              end
          | None => Raise (Exn IndexError "string index out of range")
          end
      | None =>
          Raise (Exn TypeError
                   ("string indices must be integers, not '"
                      ++ type_name k ++ "'"))
      end
  | _ =>
      Raise (Exn TypeError
               ("'" ++ type_name c ++ "' object is not subscriptable"))
  end.

(** [c["k"]] with a string literal. *)
Definition item (c : value) (k : string) : result value :=
  subscript c (VStr k).

End Py.

(** ** [os.path] on POSIX *)

Module OsPath.

Definition slash : ascii := "/"%char.

Definition starts_with_slash (s : string) : bool :=
  match s with
  | String c _ => Ascii.eqb c slash
  | EmptyString => false
  end.

Fixpoint ends_with_slash (s : string) : bool :=
  match s with
  | EmptyString => false
  | String c EmptyString => Ascii.eqb c slash
  | String _ rest => ends_with_slash rest
  end.

(** [posixpath.join(a, b)] on two strings. *)
Definition join (a b : string) : string :=
  if starts_with_slash b then b
  else if String.eqb a "" || ends_with_slash a then a ++ b
  else a ++ "/" ++ b.

Fixpoint has_slash (s : string) : bool :=
  match s with
  | EmptyString => false
  | String c rest => Ascii.eqb c slash || has_slash rest
  end.

(** [p[:p.rfind('/') + 1]] *)
Fixpoint upto_last_slash (p : string) : string :=
  match p with
  | EmptyString => EmptyString
  | String c rest =>
      if has_slash rest then String c (upto_last_slash rest)
      else if Ascii.eqb c slash then String c EmptyString
      else EmptyString
  end.

Fixpoint all_slashes (s : string) : bool :=
  match s with
  | EmptyString => true
  | String c rest => Ascii.eqb c slash && all_slashes rest
  end.

(** [s.rstrip('/')] *)
Fixpoint rstrip_slash (s : string) : string :=
  match s with
  | EmptyString => EmptyString
  | String c rest =>
      let rest' := rstrip_slash rest in
      if Ascii.eqb c slash && String.eqb rest' "" then EmptyString
      else String c rest'
  end.

(** [posixpath.dirname(p)] on a string. *)
Definition dirname (p : string) : string :=
  let head := upto_last_slash p in
  if negb (String.eqb head "") && negb (all_slashes head)
  then rstrip_slash head
  else head.

End OsPath.

(** ** The outside world *)

(** What the worker does to the outside, in the order it does it.  A [trace]
    lists the events newest first. *)
Inductive event : Type :=
| EvRequestsGet (url : string)
| EvRequestsPost (url : string) (name : value) (blob : list Z)
| EvUrlopenPost (url : string) (body : value)
| EvUrlopenGet (url : string)
| EvSleep (ms : Z)
| EvPathExists (path : value)
| EvListdir (path : string)
| EvGetsize (path : string)
| EvUploadImage (job_id : value) (path : string).

Definition trace : Type := list event.

Definition is_requests_get (e : event) : bool :=
  match e with EvRequestsGet _ => true | _ => false end.

Definition is_requests_post (e : event) : bool :=
  match e with EvRequestsPost _ _ _ => true | _ => false end.

Definition is_urlopen_get (e : event) : bool :=
  match e with EvUrlopenGet _ => true | _ => false end.

Definition is_urlopen_post (e : event) : bool :=
  match e with EvUrlopenPost _ _ => true | _ => false end.

Definition count (p : event -> bool) (tr : trace) : nat :=
  List.length (filter p tr).

(** The answers of the outside.  A call that the worker repeats (the probe,
    the image uploads, the history fetches) is answered by the number of calls
    of the same kind made before it, so that each attempt can get an answer of
    its own.  The filesystem does not change while a job is resolved. *)
Record World : Type := {
  (** [json.loads(s)] *)
  json_loads : string -> result value;
  (** [base64.b64decode(x)] *)
  b64decode : value -> result (list Z);
  (** [repr(x)] of a list or a dict, which is also its [str(x)] *)
  repr : value -> string;
  (** [requests.get(url).status_code] of the n-th GET *)
  requests_get : nat -> string -> result Z;
  (** [(status_code, text)] of the n-th [requests.post(url, files=...)] *)
  requests_post : nat -> string -> value -> list Z -> result (Z * string);
  (** [json.loads(urlopen(Request(url, data)).read())] *)
  urlopen_post : string -> value -> result value;
  (** [json.loads(urlopen(url).read())] of the n-th fetch *)
  urlopen_get : nat -> string -> result value;
  (** [os.path.exists] on a path and on a file descriptor *)
  path_exists : string -> bool;
  fd_exists : Z -> bool;
  (** [os.listdir(path)] *)
  listdir : string -> result (list string);
  (** [rp_upload.upload_image(job_id, path)] *)
  upload_image : value -> string -> result string
}.

(** The constants of the module that are read from the environment. *)
Record Config : Type := {
  COMFY_POLLING_INTERVAL_MS : Z;
  COMFY_POLLING_MAX_RETRIES : Z;
  REFRESH_WORKER : bool;
  COMFY_OUTPUT_PATH : string
}.

(** The longest sleep, in milliseconds, whose nanoseconds are below [2^63]. *)
Definition SLEEP_MAX_MS : Z := 9223372036854.

Definition COMFY_API_AVAILABLE_INTERVAL_MS : Z := 50.
Definition COMFY_API_AVAILABLE_MAX_RETRIES : Z := 500.
Definition COMFY_HOST : string := "127.0.0.1:8188".

(** ** Computations *)

Definition M (A : Type) : Type := trace -> result A * trace.

Definition ret {A} (a : A) : M A := fun tr => (Ok a, tr).

Definition raise {A} (e : exn) : M A := fun tr => (Raise e, tr).

Definition bind {A B} (c : M A) (k : A -> M B) : M B :=
  fun tr =>
    match c tr with
    | (Ok a, tr') => k a tr'
    | (Raise e, tr') => (Raise e, tr')
    end.

Definition lift {A} (r : result A) : M A := fun tr => (r, tr).

(** [try: c except <classes recognised by handles>: h] *)
Definition try_except {A} (c : M A) (handles : exn -> bool) (h : exn -> M A) : M A :=
  fun tr =>
    match c tr with
    | (Ok a, tr') => (Ok a, tr')
    | (Raise e, tr') => if handles e then h e tr' else (Raise e, tr')
    end.

Declare Scope io_scope.
Delimit Scope io_scope with io.
Notation "x <- c ;; k" := (bind c (fun x => k))
  (at level 61, c at next level, right associativity) : io_scope.
Notation "c ;;; k" := (bind c (fun _ => k))
  (at level 61, right associativity) : io_scope.

Definition is_class (k : exn_kind) (e : exn) : bool := exn_kind_eqb (exn_class e) k.

(** [except Exception] *)
Definition any_exception (e : exn) : bool := true.

(** A dictionary literal with [status] and [message]. *)
Definition status_message (status message : string) : list (string * value) :=
  [("status", VStr status); ("message", VStr message)].

(** ** The module [rp_handler] *)

Section Handler.

Variable w : World.
Variable cfg : Config.

(** [str(x)] and [f"{x}"] *)
Definition str (x : value) : string :=
  match x with
  | VStr s => s
  | VList _ | VDict _ => repr w x
  | _ => Py.scalar_repr x
  end.

(** *** Calls to the outside *)

Definition http_get (url : string) : M Z :=
  fun tr => (requests_get w (count is_requests_get tr) url, EvRequestsGet url :: tr).

Definition http_post (url : string) (name : value) (blob : list Z) : M (Z * string) :=
  fun tr => (requests_post w (count is_requests_post tr) url name blob,
             EvRequestsPost url name blob :: tr).

(** [time.sleep(ms / 1000)].  A negative length is refused, and so is a
    length that does not fit the signed 64-bit count of nanoseconds into
    which [time.sleep] converts it. *)
Definition sleep (ms : Z) : M unit :=
  fun tr =>
    if ms <? 0 then (Raise (Exn ValueError "sleep length must be non-negative"), tr)
    else if SLEEP_MAX_MS <? ms then
      (Raise (Exn OverflowError "timestamp too large to convert to C _PyTime_t"), tr)
    else (Ok tt, EvSleep ms :: tr).

(** [os.path.exists(p)]: a string is a path, an integer that fits a C [int]
    a file descriptor, anything else is refused by [os.stat]. *)
Definition os_path_exists (p : value) : M bool :=
  fun tr =>
    match p with
    | VStr s => (Ok (path_exists w s), EvPathExists p :: tr)
    | VInt fd =>
        if fd <? - 2147483648 then
          (Raise (Exn OverflowError "fd is less than minimum"), tr)
        else if 2147483647 <? fd then
          (Raise (Exn OverflowError "fd is greater than maximum"), tr)
        else (Ok (fd_exists w fd), EvPathExists p :: tr)
    | VBool b => (Ok (fd_exists w (if b then 1 else 0)), EvPathExists p :: tr)
    | _ =>
        (Raise (Exn TypeError
                  ("stat: path should be string, bytes, os.PathLike or integer, not "
                     ++ Py.type_name p)), tr)
    end.

(** [os.path.join(a, b)] *)
Definition os_path_join (a b : value) : result string :=
  match a, b with
  | VStr x, VStr y => Ok (OsPath.join x y)
  | VStr _, _ =>
      Raise (Exn TypeError
               ("join() argument must be str, bytes, or os.PathLike object, not '"
                  ++ Py.type_name b ++ "'"))
  | _, _ =>
      Raise (Exn TypeError
               ("expected str, bytes or os.PathLike object, not "
                  ++ Py.type_name a))
  end.

Definition os_listdir (p : string) : M (list string) :=
  fun tr => (listdir w p, EvListdir p :: tr).

(** [os.path.getsize(p)] of a path that [os.path.exists] has just found. *)
Definition os_path_getsize (p : string) : M unit :=
  fun tr => (Ok tt, EvGetsize p :: tr).

Definition rp_upload_upload_image (job_id : value) (path : string) : M string :=
  fun tr => (upload_image w job_id path, EvUploadImage job_id path :: tr).

(** *** [validate_input] (lines 27-66) *)

(** [all("name" in image and "image" in image for image in images)] *)
Fixpoint all_name_and_image (images : list value) : result bool :=
  match images with
  | [] => Ok true
  | image :: rest =>
      (has_name <- Py.contains (VStr "name") image ;;
       both <- (if has_name : bool then Py.contains (VStr "image") image
                else Ok false) ;;
       if both : bool then all_name_and_image rest else Ok false)%res
  end.

(** [not isinstance(images, list) or not all(...)] *)
Definition images_malformed (images : value) : result bool :=
  match images with
  | VList l => (ok <- all_name_and_image l ;; Ok (negb ok))%res
  | _ => Ok true
  end.

Definition is_none (v : value) : bool :=
  match v with VNone => true | _ => false end.

(** Lines 49-66, on the input as given or as parsed. *)
Definition validate_fields (job_input : value) : result (value * value) :=
  (workflow <- Py.get job_input "workflow" ;;
   if is_none workflow then Ok (VNone, VStr "Missing 'workflow' parameter")
   else
     images <- Py.get job_input "images" ;;
     if negb (is_none images) then
       bad <- images_malformed images ;;
       if bad : bool then
         Ok (VNone,
             VStr "'images' must be a list of objects with 'name' and 'image' keys")
       else Ok (VDict [("workflow", workflow); ("images", images)], VNone)
     else Ok (VDict [("workflow", workflow); ("images", images)], VNone))%res.

(** Returns the pair [(validated_data, error_message)]. *)
Definition validate_input (job_input : value) : result (value * value) :=
  match job_input with
  | VNone => Ok (VNone, VStr "Please provide input")
  | VStr s =>
      match json_loads w s with
      | Ok parsed => validate_fields parsed
      | Raise e =>
          if is_class JSONDecodeError e
          then Ok (VNone, VStr "Invalid JSON format in input")
          else Raise e
      end
  | _ => validate_fields job_input
  end.

(** *** [check_server] (lines 69-100) *)

(** The body of [for i in range(retries)], with [n] iterations left. *)
Fixpoint check_server_loop (url : string) (delay : Z) (n : nat) : M bool :=
  match n with
  | O => ret false
  | S n' =>
      (up <- try_except
               (code <- http_get url ;; ret (code =? 200))
               (is_class RequestException)
               (fun _ => ret false) ;;
       if up : bool then ret true
       else sleep delay ;;; check_server_loop url delay n')%io
  end.

Definition check_server (url : string) (retries delay : Z) : M bool :=
  check_server_loop url delay (Z.to_nat retries).

(** *** [upload_images] (lines 103-153) *)

Definition upload_url : string := "http://" ++ COMFY_HOST ++ "/upload/image".

(** The loop of lines 122-138 over the remaining images, with the two lists
    built so far. *)
Fixpoint upload_loop (images : list value) (responses upload_errors : list string)
  : M (list string * list string) :=
  match images with
  | [] => ret (responses, upload_errors)
  | image :: rest =>
      (name <- lift (Py.item image "name") ;;
       image_data <- lift (Py.item image "image") ;;
       blob <- lift (b64decode w image_data) ;;
       response <- http_post upload_url name blob ;;
       if negb (fst response =? 200) then
         upload_loop rest responses
           (List.app upload_errors
              [("Error uploading " ++ str name ++ ": " ++ snd response)%string])
       else
         upload_loop rest
           (List.app responses [("Successfully uploaded " ++ str name)%string])
           upload_errors)%io
  end.

Definition upload_outcome (status message : string) (details : list string) : value :=
  VDict [("status", VStr status); ("message", VStr message);
         ("details", VList (map VStr details))].

Definition upload_images (images : value) : M value :=
  if negb (Py.truthy images) then
    ret (upload_outcome "success" "No images to upload" [])
  else
    (l <- lift (Py.iter images) ;;
     lists <- upload_loop l [] [] ;;
     match snd lists with
     | _ :: _ =>
         ret (upload_outcome "error" "Some images failed to upload" (snd lists))
     | [] =>
         ret (upload_outcome "success" "All images uploaded successfully" (fst lists))
     end)%io.

(** *** [queue_workflow] and [get_history] (lines 156-185) *)

Definition queue_workflow (workflow : value) : M value :=
  fun tr =>
    let url := "http://" ++ COMFY_HOST ++ "/prompt" in
    let body := VDict [("prompt", workflow)] in
    (urlopen_post w url body, EvUrlopenPost url body :: tr).

Definition history_url (prompt_id : value) : string :=
  "http://" ++ COMFY_HOST ++ "/history/" ++ str prompt_id.

Definition get_history (prompt_id : value) : M value :=
  fun tr =>
    (urlopen_get w (count is_urlopen_get tr) (history_url prompt_id),
     EvUrlopenGet (history_url prompt_id) :: tr).

(** *** [process_output_files] (lines 203-289) *)

(** The two variables of the scan, [(output_file, full_path)]. *)
Definition candidate : Type := (value * value)%type.

(** The body of the two inner loops (lines 232-233 and 239-240). *)
Definition take_entry (entry : value) : result candidate :=
  (subfolder <- Py.item entry "subfolder" ;;
   filename <- Py.item entry "filename" ;;
   output_file <- os_path_join subfolder filename ;;
   full_path <- Py.get entry "fullpath" ;;
   Ok (VStr output_file, full_path))%res.

Fixpoint scan_entries (entries : list value) (cand : candidate) : result candidate :=
  match entries with
  | [] => Ok cand
  | entry :: rest => (c <- take_entry entry ;; scan_entries rest c)%res
  end.

(** [if key in node_output: for entry in node_output[key]: ...] *)
Definition scan_key (key : string) (node_output : value) (cand : candidate)
  : result candidate :=
  (present <- Py.contains (VStr key) node_output ;;
   if present : bool then
     listed <- Py.item node_output key ;;
     entries <- Py.iter listed ;;
     scan_entries entries cand
   else Ok cand)%res.

Fixpoint scan_nodes (nodes : list (string * value)) (cand : candidate)
  : result candidate :=
  match nodes with
  | [] => Ok cand
  | (_, node_output) :: rest =>
      (c1 <- scan_key "images" node_output cand ;;
       c2 <- scan_key "gifs" node_output c1 ;;
       scan_nodes rest c2)%res
  end.

(** Lines 221-240. *)
Definition scan_outputs (outputs : value) : result candidate :=
  (nodes <- Py.items outputs ;; scan_nodes nodes (VNone, VNone))%res.

(** Lines 255-260: the value of [local_file_path] after the choice. *)
Definition choose_path (constructed : string) (full_path : value) : M value :=
  (reported <- (if Py.truthy full_path then os_path_exists full_path
                else ret false) ;;
   if reported : bool then ret full_path
   else
     built <- os_path_exists (VStr constructed) ;;
     if negb built then ret full_path else ret (VStr constructed))%io.

(** [os.fspath(p)], which [os.path.dirname] applies to its argument. *)
Definition fspath (p : value) : result string :=
  match p with
  | VStr s => Ok s
  | _ =>
      Raise (Exn TypeError
               ("expected str, bytes or os.PathLike object, not "
                  ++ Py.type_name p))
  end.

Definition no_output_found : value :=
  VDict (status_message "error" "No output file found in the generation results").

Definition file_missing (path : string) : value :=
  VDict (status_message "error"
           ("the file does not exist in the specified output folder: " ++ path)).

(** Lines 262-289, once [local_file_path] is chosen. *)
Definition deliver (local_file_path job_id : value) : M value :=
  (path <- lift (fspath local_file_path) ;;
   let dir_path := OsPath.dirname path in
   dir_there <- os_path_exists (VStr dir_path) ;;
   _ <- (if dir_there : bool then os_listdir dir_path ;;; ret tt else ret tt) ;;
   found <- os_path_exists (VStr path) ;;
   if found : bool then
     os_path_getsize path ;;;
     file_url <- rp_upload_upload_image job_id path ;;
     ret (VDict (status_message "success" file_url))
   else ret (file_missing path))%io.

Definition process_output_files (outputs job_id : value) : M value :=
  (cand <- lift (scan_outputs outputs) ;;
   match fst cand with
   | VNone => ret no_output_found
   | output_file =>
       local_file_path <-
         choose_path (COMFY_OUTPUT_PATH cfg ++ "/" ++ str output_file) (snd cand) ;;
       deliver local_file_path job_id
   end)%io.

(** *** [handler] (lines 292-361) *)

(** [prompt_id in history and history[prompt_id].get("outputs")], as the
    [if] of line 345 tests it. *)
Definition history_ready (prompt_id history : value) : result bool :=
  (listed <- Py.contains prompt_id history ;;
   if listed : bool then
     record <- Py.subscript history prompt_id ;;
     outputs <- Py.get record "outputs" ;;
     Ok (Py.truthy outputs)
   else Ok false)%res.

(** How the [while] of line 341 ends without a fault: by [break], with the
    history fetched last, or by its [else]. *)
Inductive polled : Type :=
| Found (history : value)
| Exhausted.

(** The [while retries < COMFY_POLLING_MAX_RETRIES] loop with [n] iterations
    left, that is [n = COMFY_POLLING_MAX_RETRIES - retries]. *)
Fixpoint poll_loop (prompt_id : value) (n : nat) : M polled :=
  match n with
  | O => ret Exhausted
  | S n' =>
      (history <- get_history prompt_id ;;
       ready <- lift (history_ready prompt_id history) ;;
       if ready : bool then ret (Found history)
       else sleep (COMFY_POLLING_INTERVAL_MS cfg) ;;; poll_loop prompt_id n')%io
  end.

Definition error_result (message : string) : value :=
  VDict [("error", VStr message)].

Definition timeout_result : value :=
  error_result "Max retries reached while waiting for image generation".

(** What a stage of the handler hands on: the value the handler returns
    there, or what the next stage needs. *)
Inductive stage (A : Type) : Type :=
| Returns (result : value)
| Goes_on (a : A).
Arguments Returns {A} result.
Arguments Goes_on {A} a.

(** Lines 339-354: the polling loop inside its [try]. *)
Definition wait_for_outputs (prompt_id : value) : M (stage value) :=
  fun tr =>
    match poll_loop prompt_id (Z.to_nat (COMFY_POLLING_MAX_RETRIES cfg)) tr with
    | (Ok (Found history), tr') => (Ok (Goes_on history), tr')
    | (Ok Exhausted, tr') => (Ok (Returns timeout_result), tr')
    | (Raise e, tr') =>
        (Ok (Returns (error_result
                        ("Error waiting for image generation: " ++ exn_str e))), tr')
    end.

(** Lines 330-335: the submission inside its [try]. *)
Definition submit (workflow : value) : M (stage value) :=
  try_except
    (queued_workflow <- queue_workflow workflow ;;
     prompt_id <- lift (Py.item queued_workflow "prompt_id") ;;
     ret (Goes_on prompt_id))%io
    any_exception
    (fun e => ret (Returns (error_result ("Error queuing workflow: " ++ exn_str e)))).

(** Lines 357-361. *)
Definition collect (job history prompt_id : value) : M value :=
  (record <- lift (Py.subscript history prompt_id) ;;
   outputs <- lift (Py.get record "outputs") ;;
   job_id <- lift (Py.item job "id") ;;
   images_result <- process_output_files outputs job_id ;;
   match images_result with
   | VDict kvs =>
       ret (VDict (Py.dict_set "refresh_worker" (VBool (REFRESH_WORKER cfg)) kvs))
   | _ => raise (Exn TypeError "'dict' expected after **")
   end)%io.

(** Lines 329-361: everything after the upload succeeded. *)
Definition run_workflow (job workflow : value) : M value :=
  (submitted <- submit workflow ;;
   match submitted with
   | Returns r => ret r
   | Goes_on prompt_id =>
       waited <- wait_for_outputs prompt_id ;;
       match waited with
       | Returns r => ret r
       | Goes_on history => collect job history prompt_id
       end
   end)%io.

(** Lines 323-361: everything after the availability check. *)
Definition after_check (job workflow images : value) : M value :=
  (upload_result <- upload_images images ;;
   status <- lift (Py.item upload_result "status") ;;
   if Py.eq status (VStr "error") then ret upload_result
   else run_workflow job workflow)%io.

Definition handler (job : value) : M value :=
  (job_input <- lift (Py.item job "input") ;;
   validated <- lift (validate_input job_input) ;;
   let (validated_data, error_message) := validated : value * value in
   if Py.truthy error_message then ret (VDict [("error", error_message)])
   else
     workflow <- lift (Py.item validated_data "workflow") ;;
     images <- lift (Py.get validated_data "images") ;;
     _ <- check_server ("http://" ++ COMFY_HOST)
            COMFY_API_AVAILABLE_MAX_RETRIES COMFY_API_AVAILABLE_INTERVAL_MS ;;
     after_check job workflow images)%io.

End Handler.

Arguments Returns {A} result.
Arguments Goes_on {A} a.

(** ** A concrete world for the examples *)

(** [base64.b64decode(s)] with its default [validate=False], after
    [binascii.a2b_base64]: characters outside the alphabet are skipped, a pad
    that completes a quad ends the input, and what is left of an incomplete
    quad is an error. *)
Module Base64.

Definition digit (c : ascii) : option Z :=
  let n := Z.of_nat (nat_of_ascii c) in
  if (65 <=? n) && (n <=? 90) then Some (n - 65)
  else if (97 <=? n) && (n <=? 122) then Some (n - 71)
  else if (48 <=? n) && (n <=? 57) then Some (n + 4)
  else if n =? 43 then Some 62
  else if n =? 47 then Some 63
  else None.

Definition pad : ascii := "="%char.

(** The loop over the input, with the position in the quad, the bits left
    over and the pads seen since the last digit; the bytes come out in
    reverse.  A full quad gives three bytes, so the bytes that are out tell
    how many characters were data. *)
Fixpoint a2b (s : string) (quad_pos leftchar pads : Z) (out : list Z)
  : result (list Z) :=
  match s with
  | EmptyString =>
      if quad_pos =? 0 then Ok (rev out)
      else if quad_pos =? 1 then
        Raise (Exn BinasciiError
                 ("Invalid base64-encoded string: number of data characters ("
                    ++ NilZero.string_of_int
                         (Z.to_int (4 * (Z.of_nat (List.length out) / 3) + 1))
                    ++ ") cannot be 1 more than a multiple of 4"))
      else Raise (Exn BinasciiError "Incorrect padding")
  | String c rest =>
      if Ascii.eqb c pad then
        if (2 <=? quad_pos) && (4 <=? quad_pos + (pads + 1)) then Ok (rev out)
        else a2b rest quad_pos leftchar
               (if 2 <=? quad_pos then pads + 1 else pads) out
      else
        match digit c with
        | None => a2b rest quad_pos leftchar pads out
        | Some d =>
            if quad_pos =? 0 then a2b rest 1 d 0 out
            else if quad_pos =? 1 then
              a2b rest 2 (Z.land d 15) 0
                (Z.lor (Z.shiftl leftchar 2) (Z.shiftr d 4) :: out)
            else if quad_pos =? 2 then
              a2b rest 3 (Z.land d 3) 0
                (Z.lor (Z.shiftl leftchar 4) (Z.shiftr d 2) :: out)
            else
              a2b rest 0 0 0 (Z.lor (Z.shiftl leftchar 6) d :: out)
        end
  end.

Fixpoint is_ascii (s : string) : bool :=
  match s with
  | EmptyString => true
  | String c rest => (nat_of_ascii c <? 128)%nat && is_ascii rest
  end.

Definition b64decode (x : value) : result (list Z) :=
  match x with
  | VStr s =>
      if is_ascii s then a2b s 0 0 0 []
      else Raise (Exn ValueError
                    "string argument should contain only ASCII characters")
  | _ =>
      Raise (Exn TypeError
               ("argument should be a bytes-like object or ASCII string, not '"
                  ++ Py.type_name x ++ "'"))
  end.

End Base64.

Module Demo.

(** The parses the examples need; any other text is taken as malformed. *)
Definition loads (s : string) : result value :=
  if String.eqb s "null" then Ok VNone
  else if String.eqb s "[]" then Ok (VList [])
  else if String.eqb s "7" then Ok (VInt 7)
  else if String.eqb s "{}" then Ok (VDict [])
  else Raise (Exn JSONDecodeError "Expecting value: line 1 column 1 (char 0)").

(** A stand-in for [repr] on lists and dicts; the examples print none. *)
Definition repr_of (v : value) : string := "<" ++ Py.type_name v ++ ">".

(** A world given by the answers of the backend and the files on disk; every
    directory can be listed and the bucket upload answers with a URL made of
    the path. *)
Definition world
  (get : nat -> result Z)
  (post : nat -> result (Z * string))
  (prompt : result value)
  (history : nat -> result value)
  (exists_ : string -> bool) : World :=
  {| json_loads := loads;
     b64decode := Base64.b64decode;
     repr := repr_of;
     requests_get := fun i _ => get i;
     requests_post := fun i _ _ _ => post i;
     urlopen_post := fun _ _ => prompt;
     urlopen_get := fun i _ => history i;
     path_exists := exists_;
     fd_exists := fun fd => (0 <=? fd) && (fd <=? 2);
     listdir := fun _ => Ok [];
     upload_image := fun _ path => Ok ("https://bucket.example/" ++ path) |}.

Definition refused : exn := Exn RequestException "Connection refused".

(** A backend that refuses every second upload. *)
Definition picky : World :=
  world (fun _ => Ok 200)
    (fun i => if Nat.even i then Ok (200, "{}") else Ok (500, "disk full"))
    (Ok (VDict [("prompt_id", VStr "p1")]))
    (fun _ => Ok (VDict []))
    (fun _ => false).

(** A backend whose availability probe never gets through, and which
    serves everything else. *)
Definition deaf : World :=
  world (fun _ => Raise refused) (fun _ => Ok (200, "{}"))
    (Ok (VDict [("prompt_id", VStr "p1")]))
    (fun _ => Ok (VDict []))
    (fun _ => false).

Definition image (name data : string) : value :=
  VDict [("name", VStr name); ("image", VStr data)].

Definition config : Config :=
  {| COMFY_POLLING_INTERVAL_MS := 30000;
     COMFY_POLLING_MAX_RETRIES := 3;
     REFRESH_WORKER := false;
     COMFY_OUTPUT_PATH := "/comfyui/output" |}.

(** A backend that is up, accepts every upload, queues the workflow as
    prompt [p1] and never has outputs for it, over an empty disk. *)
Definition idle : World :=
  world (fun _ => Ok 200) (fun _ => Ok (200, "{}"))
    (Ok (VDict [("prompt_id", VStr "p1")]))
    (fun _ => Ok (VDict []))
    (fun _ => false).

Definition workflow : value := VDict [("3", VDict [("class_type", VStr "KSampler")])].

(** A job with a workflow and one input image. *)
Definition job (images : value) : value :=
  VDict [("id", VStr "job-1");
         ("input", VDict [("workflow", workflow); ("images", images)])].

(** The outputs of a run of one [SaveImage] node, which reports no
    [fullpath]. *)
Definition saved_image_outputs : value :=
  VDict [("9", VDict [("images",
                       VList [VDict [("filename", VStr "a.png");
                                     ("subfolder", VStr "");
                                     ("type", VStr "output")]])])].

(** Two nodes with three entries; the video of the second node comes last. *)
Definition two_nodes : list (string * value) :=
  [("9", VDict [("images",
                 VList [VDict [("filename", VStr "a.png"); ("subfolder", VStr "")]])]);
   ("12", VDict [("gifs",
                  VList [VDict [("filename", VStr "b.gif");
                                ("subfolder", VStr "clips");
                                ("fullpath", VStr "/data/clips/b.gif")]]);
                 ("images",
                  VList [VDict [("filename", VStr "c.png");
                                ("subfolder", VStr "frames")]])])].

End Demo.

(** ** Notions of the specification *)

(** A length in milliseconds that [time.sleep] accepts. *)
Definition sleepable (ms : Z) : Prop := 0 <= ms <= SLEEP_MAX_MS.

(** The number of history fetches in a trace. *)
Definition fetches (tr : trace) : nat := count is_urlopen_get tr.

(** The number of availability probes in a trace. *)
Definition probes (tr : trace) : nat := count is_requests_get tr.

(** The number of image uploads in a trace. *)
Definition posts (tr : trace) : nat := count is_requests_post tr.

(** The [i]-th history fetch for [prompt_id] comes back and is not ready: the
    test of line 345 is false on it. *)
Definition not_ready_at (w : World) (prompt_id : value) (i : nat) : Prop :=
  exists history,
    urlopen_get w i (history_url w prompt_id) = Ok history /\
    history_ready prompt_id history = Ok false.

(** The [i]-th history fetch for [prompt_id] comes back as [history] and is
    ready. *)
Definition ready_at (w : World) (prompt_id : value) (i : nat) (history : value) : Prop :=
  urlopen_get w i (history_url w prompt_id) = Ok history /\
  history_ready prompt_id history = Ok true.








(** The entries listed under [key] in a node output. *)
Definition listed_under (key : string) (node_output : value) : list value :=
  match node_output with
  | VDict kvs =>
      match Py.dict_lookup key kvs with
      | Some (VList l) => l
      | _ => []
      end
  | _ => []
  end.

(** The entries of a node output in the order of the scan: those under
    [images], then those under [gifs]. *)
Definition node_entries (node_output : value) : list value :=
  (listed_under "images" node_output ++ listed_under "gifs" node_output)%list.

(** The entries of all node outputs, in mapping-iteration order. *)
Definition all_entries (nodes : list (string * value)) : list value :=
  flat_map (fun node => node_entries (snd node)) nodes.

(** The candidate that an entry stands for: its subfolder joined with its
    file name, and its [fullpath] when it has one. *)
Definition entry_candidate (entry : value) : option candidate :=
  match entry with
  | VDict kvs =>
      match Py.dict_lookup "subfolder" kvs, Py.dict_lookup "filename" kvs with
      | Some (VStr subfolder), Some (VStr filename) =>
          Some (VStr (OsPath.join subfolder filename),
                match Py.dict_lookup "fullpath" kvs with
                | Some full_path => full_path
                | None => VNone
                end)
      | _, _ => None
      end
  | _ => None
  end.

Definition entry_ok (entry : value) : bool :=
  match entry_candidate entry with Some _ => true | None => false end.

Definition listing_ok (key : string) (kvs : list (string * value)) : bool :=
  match Py.dict_lookup key kvs with
  | None => true
  | Some (VList l) => forallb entry_ok l
  | Some _ => false
  end.

(** A node output as the backend writes it: a mapping whose [images] and
    [gifs], when present, are lists of mappings with a [subfolder] and a
    [filename] that are strings. *)
Definition node_ok (node_output : value) : bool :=
  match node_output with
  | VDict kvs => listing_ok "images" kvs && listing_ok "gifs" kvs
  | _ => false
  end.

Definition outputs_ok (nodes : list (string * value)) : bool :=
  forallb (fun node => node_ok (snd node)) nodes.

(** The candidate after the scan has gone over [entries], starting from
    [cand]: each entry overwrites what was there. *)
Definition overwrite (entries : list value) (cand : candidate) : candidate :=
  fold_left
    (fun c entry => match entry_candidate entry with Some c' => c' | None => c end)
    entries cand.

(** What the backend answered to the upload of one image: the name of the
    image, the status code and the text of the response. *)
Definition answer : Type := (value * (Z * string))%type.

(** The answers to the uploads of [images] when the first of them is the
    [i]-th upload of the job, provided that every image has a [name] and an
    [image] that decodes and that every POST comes back with a response. *)
Fixpoint upload_answers (w : World) (i : nat) (images : list value)
  : option (list answer) :=
  match images with
  | [] => Some []
  | image :: rest =>
      match Py.item image "name", Py.item image "image" with
      | Ok name, Ok image_data =>
          match b64decode w image_data with
          | Ok blob =>
              match requests_post w i upload_url name blob with
              | Ok response =>
                  option_map (cons (name, response)) (upload_answers w (S i) rest)
              | Raise _ => None
              end
          | Raise _ => None
          end
      | _, _ => None
      end
  end.

Definition accepted (a : answer) : bool := fst (snd a) =? 200.

Definition rejected (a : answer) : bool := negb (accepted a).

Definition success_line (w : World) (a : answer) : string :=
  "Successfully uploaded " ++ str w (fst a).

Definition error_line (w : World) (a : answer) : string :=
  "Error uploading " ++ str w (fst a) ++ ": " ++ snd (snd a).

(** The [i]-th probe of [url] finds the server up: the GET comes back with
    status 200. *)
Definition attempt_up (w : World) (url : string) (i : nat) : bool :=
  match requests_get w i url with
  | Ok code => code =? 200
  | Raise _ => false
  end.

(** The [i]-th probe of [url] finds the server not ready: the GET comes back
    with another status, or fails with a [RequestException]. *)
Definition attempt_down (w : World) (url : string) (i : nat) : bool :=
  match requests_get w i url with
  | Ok code => negb (code =? 200)
  | Raise e => is_class RequestException e
  end.

Definition is_mapping (v : value) : bool :=
  match v with VDict _ => true | _ => false end.

(** The four messages with which [validate_input] rejects an input. *)
Definition validation_messages : list string :=
  ["Please provide input";
   "Invalid JSON format in input";
   "Missing 'workflow' parameter";
   "'images' must be a list of objects with 'name' and 'image' keys"].

(** The two shapes of the final job result in the interface of the
    specification. *)
Definition status_shape (v : value) : Prop :=
  exists status message refresh_worker,
    v = VDict [("status", VStr status); ("message", VStr message);
               ("refresh_worker", VBool refresh_worker)] /\
    (status = "success" \/ status = "error").

(** The first shape, with the flag of the configuration. *)
Definition final_shape (cfg : Config) (v : value) : Prop :=
  exists status message,
    v = VDict [("status", VStr status); ("message", VStr message);
               ("refresh_worker", VBool (REFRESH_WORKER cfg))] /\
    (status = "success" \/ status = "error").



(** ** Notions for the further properties *)

(** *** [base64_encode] (lines 188-200) *)

(** [base64.b64encode(bytes).decode("utf-8")]: three bytes give four
    characters of the alphabet, and a last group of one or two bytes is
    padded with [=]. *)
Module Base64Text.

Definition alphabet : string :=
  "ABCDEFGHIJKLMNOPQRSTUVWXYZabcdefghijklmnopqrstuvwxyz0123456789+/".

Definition char (d : Z) : ascii :=
  match String.get (Z.to_nat d) alphabet with
  | Some c => c
  | None => Base64.pad
  end.

Fixpoint b2a (bytes : list Z) : string :=
  match bytes with
  | [] => EmptyString
  | [a] =>
      String (char (Z.shiftr a 2))
        (String (char (Z.shiftl (Z.land a 3) 4)) "==")
  | [a; b] =>
      String (char (Z.shiftr a 2))
        (String (char (Z.lor (Z.shiftl (Z.land a 3) 4) (Z.shiftr b 4)))
           (String (char (Z.shiftl (Z.land b 15) 2)) "="))
  | a :: b :: c :: rest =>
      String (char (Z.shiftr a 2))
        (String (char (Z.lor (Z.shiftl (Z.land a 3) 4) (Z.shiftr b 4)))
           (String (char (Z.lor (Z.shiftl (Z.land b 15) 2) (Z.shiftr c 6)))
              (String (char (Z.land c 63)) (b2a rest))))
  end.

(** The numbers a byte can be, and the numbers a character of the alphabet
    stands for. *)
Definition octets : list Z := map Z.of_nat (seq 0 256).
Definition sextets : list Z := map Z.of_nat (seq 0 64).

Definition is_octet (b : Z) : Prop := 0 <= b < 256.

(** What the decoder sees of a character of the alphabet. *)
Definition char_ok (d : Z) : bool :=
  match Base64.digit (char d) with
  | Some d' => d' =? d
  | None => false
  end
  && negb (Ascii.eqb (char d) Base64.pad)
  && (nat_of_ascii (char d) <? 128)%nat.

Definition second_sextet (a b : Z) : Z :=
  Z.lor (Z.shiftl (Z.land a 3) 4) (Z.shiftr b 4).

Definition third_sextet (b c : Z) : Z :=
  Z.lor (Z.shiftl (Z.land b 15) 2) (Z.shiftr c 6).

(** The arithmetic of one byte and of two neighbouring bytes. *)
Definition octet_ok (a : Z) : bool :=
  (0 <=? Z.shiftr a 2) && (Z.shiftr a 2 <? 64)
  && (0 <=? Z.land a 63) && (Z.land a 63 <? 64)
  && (Z.lor (Z.shiftl (Z.shiftr a 2) 2) (Z.land a 3) =? a)
  && (Z.lor (Z.shiftl (Z.shiftr a 4) 4) (Z.land a 15) =? a)
  && (Z.lor (Z.shiftl (Z.shiftr a 6) 6) (Z.land a 63) =? a).

Definition pair_ok (a b : Z) : bool :=
  (0 <=? second_sextet a b) && (second_sextet a b <? 64)
  && (Z.shiftr (second_sextet a b) 4 =? Z.land a 3)
  && (Z.land (second_sextet a b) 15 =? Z.shiftr b 4)
  && (0 <=? third_sextet a b) && (third_sextet a b <? 64)
  && (Z.shiftr (third_sextet a b) 2 =? Z.land a 15)
  && (Z.land (third_sextet a b) 3 =? Z.shiftr b 6).

End Base64Text.

(** [base64_encode(img_path)], over [read], which stands for opening the
    file and reading all of it: the bytes of the file, or the fault of
    [open]. *)
Definition base64_encode (read : string -> result (list Z)) (img_path : string)
  : result string :=
  (bytes <- read img_path ;; Ok (Base64Text.b2a bytes))%res.


(** A member of [images] that is a mapping with both keys. *)
Definition has_name_and_image (kvs : list (string * value)) : bool :=
  Py.dict_has "name" kvs && Py.dict_has "image" kvs.

Definition is_sleep (e : event) : bool :=
  match e with EvSleep _ => true | _ => false end.

Definition is_bucket_upload (e : event) : bool :=
  match e with EvUploadImage _ _ => true | _ => false end.

(** The [i]-th history fetch for [prompt_id] ends in the fault [e]: the
    request itself fails, or what it brings back makes the test of line 345
    raise. *)
Definition faults_at (w : World) (prompt_id : value) (i : nat) (e : exn) : Prop :=
  urlopen_get w i (history_url w prompt_id) = Raise e \/
  exists history,
    urlopen_get w i (history_url w prompt_id) = Ok history /\
    history_ready prompt_id history = Raise e.

Definition prompt_url : string := "http://" ++ COMFY_HOST ++ "/prompt".

(** *** The stages of a job *)

(** The input of [job] validates to [workflow] and [images]. *)
Definition validated (w : World) (job workflow images : value) : Prop :=
  exists job_input,
    Py.item job "input" = Ok job_input /\
    validate_input w job_input =
      Ok (VDict [("workflow", workflow); ("images", images)], VNone).




(** The trace after the submission of [workflow]. *)
Definition submitted (workflow : value) (tr : trace) : trace :=
  EvUrlopenPost prompt_url (VDict [("prompt", workflow)]) :: tr.


Module Scenario.

(** A backend that has the outputs of prompt [p1] at the second fetch, with
    the file it reports on disk. *)
Definition outputs : value :=
  VDict [("12", VDict [("gifs",
                        VList [VDict [("filename", VStr "b.gif");
                                      ("subfolder", VStr "clips");
                                      ("fullpath", VStr "/data/clips/b.gif")]])])].

Definition history (i : nat) : result value :=
  match i with
  | O => Ok (VDict [])
  | _ => Ok (VDict [("p1", VDict [("outputs", outputs)])])
  end.

Definition finished : World :=
  Demo.world (fun _ => Ok 200) (fun _ => Ok (200, "{}"))
    (Ok (VDict [("prompt_id", VStr "p1")]))
    history
    (fun path => String.eqb path "/data/clips/b.gif" || String.eqb path "/data/clips").

(** The same backend when only the file under the output root is there. *)
Definition relocated : World :=
  Demo.world (fun _ => Ok 200) (fun _ => Ok (200, "{}"))
    (Ok (VDict [("prompt_id", VStr "p1")]))
    history
    (fun path => String.eqb path "/comfyui/output/clips/b.gif").

(** A backend whose history request fails at the second fetch. *)
Definition flaky : World :=
  Demo.world (fun _ => Ok 200) (fun _ => Ok (200, "{}"))
    (Ok (VDict [("prompt_id", VStr "p1")]))
    (fun i => match i with
              | O => Ok (VDict [])
              | _ => Raise (Exn URLError "<urlopen error timed out>")
              end)
    (fun _ => false).

(** A backend whose probe fails once with a fault that is not a transport
    exception of [requests]. *)
Definition broken_probe : World :=
  Demo.world (fun _ => Raise (Exn RuntimeError "interpreter shutdown"))
    (fun _ => Ok (200, "{}"))
    (Ok (VDict [("prompt_id", VStr "p1")]))
    (fun _ => Ok (VDict []))
    (fun _ => false).

(** A backend that answers the submission without a [prompt_id]. *)
Definition unqueued : World :=
  Demo.world (fun _ => Ok 200) (fun _ => Ok (200, "{}"))
    (Ok (VDict [("error", VStr "invalid prompt")]))
    (fun _ => Ok (VDict []))
    (fun _ => false).

(** The finished backend over a bucket that refuses the upload. *)
Definition bucket_down : World :=
  {| json_loads := Demo.loads;
     b64decode := Base64.b64decode;
     repr := Demo.repr_of;
     requests_get := fun _ _ => Ok 200;
     requests_post := fun _ _ _ _ => Ok (200, "{}");
     urlopen_post := fun _ _ => Ok (VDict [("prompt_id", VStr "p1")]);
     urlopen_get := fun i _ => history i;
     path_exists :=
       fun path => String.eqb path "/data/clips/b.gif" || String.eqb path "/data/clips";
     fd_exists := fun fd => (0 <=? fd) && (fd <=? 2);
     listdir := fun _ => Ok [];
     upload_image := fun _ _ => Raise (Exn RuntimeError "bucket unreachable") |}.

(** A history whose outputs for [p1] are a list, not a mapping. *)
Definition listed_outputs : list (string * value) :=
  [("p1", VDict [("outputs", VList [VStr "b.gif"])])].


Definition plain_job : value :=
  VDict [("id", VStr "job-1"); ("input", VDict [("workflow", Demo.workflow)])].

End Scenario.

(** * Properties *)

(** ** The library models on known values *)

Example b64_abc : Base64.b64decode (VStr "YWJj") = Ok [97; 98; 99].
Proof. reflexivity. Qed.

Example b64_padded : Base64.b64decode (VStr "YQ==") = Ok [97].
Proof. reflexivity. Qed.

Example b64_truncated :
  Base64.b64decode (VStr "YQ") = Raise (Exn BinasciiError "Incorrect padding").
Proof. reflexivity. Qed.

Example dirname_file : OsPath.dirname "/comfyui/output/sub/a.png" = "/comfyui/output/sub".
Proof. reflexivity. Qed.

Example dirname_root : OsPath.dirname "/a.png" = "/".
Proof. reflexivity. Qed.

Example dirname_bare : OsPath.dirname "a.png" = "".
Proof. reflexivity. Qed.

Example join_plain : OsPath.join "sub" "a.png" = "sub/a.png".
Proof. reflexivity. Qed.

Example join_empty : OsPath.join "" "a.png" = "a.png".
Proof. reflexivity. Qed.

Example join_absolute : OsPath.join "sub" "/tmp/a.png" = "/tmp/a.png".
Proof. reflexivity. Qed.

(** ** Traces *)

Lemma count_cons (p : event -> bool) (e : event) (tr : trace) :
  count p (e :: tr) = ((if p e then 1 else 0) + count p tr)%nat.
Proof. unfold count. simpl. destruct (p e); reflexivity. Qed.

Lemma sleep_accepts (ms : Z) (tr : trace) :
  sleepable ms -> sleep ms tr = (Ok tt, EvSleep ms :: tr).
Proof.
  unfold sleepable, sleep. intros Hms.
  destruct (Z.ltb_spec ms 0); [lia |].
  destruct (Z.ltb_spec SLEEP_MAX_MS ms); [lia | reflexivity].
Qed.

Lemma sleep_cases (ms : Z) (tr : trace) :
  sleep ms tr = (Ok tt, EvSleep ms :: tr) \/ exists e, sleep ms tr = (Raise e, tr).
Proof.
  unfold sleep. destruct (ms <? 0); [right; eexists; reflexivity |].
  destruct (SLEEP_MAX_MS <? ms); [right; eexists; reflexivity | left; reflexivity].
Qed.

Lemma fetches_turn (ms : Z) (url : string) (tr : trace) :
  fetches (EvSleep ms :: EvUrlopenGet url :: tr) = S (fetches tr).
Proof. unfold fetches. rewrite !count_cons. reflexivity. Qed.

(** ** Completion polling *)

Section Polling.

Variable w : World.
Variable cfg : Config.
Variable prompt_id : value.
Hypothesis interval_ok : sleepable (COMFY_POLLING_INTERVAL_MS cfg).

Lemma sleep_interval (tr : trace) :
  sleep (COMFY_POLLING_INTERVAL_MS cfg) tr = (Ok tt, EvSleep (COMFY_POLLING_INTERVAL_MS cfg) :: tr).
Proof. apply sleep_accepts, interval_ok. Qed.

(** One turn of the loop on a fetch that is not ready. *)
Lemma poll_loop_step_not_ready (n : nat) (tr : trace) :
  not_ready_at w prompt_id (fetches tr) ->
  poll_loop w cfg prompt_id (S n) tr =
  poll_loop w cfg prompt_id n
    (EvSleep (COMFY_POLLING_INTERVAL_MS cfg) :: EvUrlopenGet (history_url w prompt_id) :: tr).
Proof.
  intros (h & Hget & Hready).
  cbn [poll_loop]. unfold bind at 1. unfold get_history.
  fold (fetches tr). rewrite Hget.
  unfold bind at 1. unfold lift. rewrite Hready.
  unfold bind at 1. rewrite sleep_interval. reflexivity.
Qed.

(** One turn of the loop on a fetch that is ready. *)
Lemma poll_loop_step_ready (n : nat) (tr : trace) (h : value) :
  ready_at w prompt_id (fetches tr) h ->
  poll_loop w cfg prompt_id (S n) tr =
  (Ok (Found h), EvUrlopenGet (history_url w prompt_id) :: tr).
Proof.
  intros (Hget & Hready).
  cbn [poll_loop]. unfold bind at 1. unfold get_history.
  fold (fetches tr). rewrite Hget.
  unfold bind at 1. unfold lift. rewrite Hready. reflexivity.
Qed.

Lemma fetches_after_turn (tr : trace) :
  fetches (EvSleep (COMFY_POLLING_INTERVAL_MS cfg) :: EvUrlopenGet (history_url w prompt_id) :: tr)
  = S (fetches tr).
Proof. unfold fetches. rewrite !count_cons. reflexivity. Qed.


Lemma poll_loop_first_ready (k : nat) :
  forall n tr h,
    (k < n)%nat ->
    (forall i, (i < k)%nat -> not_ready_at w prompt_id (fetches tr + i)) ->
    ready_at w prompt_id (fetches tr + k) h ->
    exists tr',
      poll_loop w cfg prompt_id n tr = (Ok (Found h), tr') /\
      fetches tr' = (fetches tr + k + 1)%nat.
Proof.
  induction k as [|k IH]; intros n tr h Hk Hbefore Hready.
  - destruct n as [|n]; [lia |].
    rewrite Nat.add_0_r in Hready.
    rewrite (poll_loop_step_ready n tr h Hready).
    eexists. split; [reflexivity |].
    unfold fetches. rewrite count_cons. simpl. lia.
  - destruct n as [|n]; [lia |].
    rewrite poll_loop_step_not_ready.
    + destruct (IH n (EvSleep (COMFY_POLLING_INTERVAL_MS cfg) :: EvUrlopenGet (history_url w prompt_id) :: tr) h)
        as (tr' & Hrun & Hcount).
      * lia.
      * intros i Hi. rewrite fetches_after_turn.
        replace (S (fetches tr) + i)%nat with (fetches tr + S i)%nat by lia.
        apply Hbefore. lia.
      * rewrite fetches_after_turn.
        replace (S (fetches tr) + k)%nat with (fetches tr + S k)%nat by lia.
        exact Hready.
      * exists tr'. split; [exact Hrun |].
        rewrite Hcount, fetches_after_turn. lia.
    + replace (fetches tr) with (fetches tr + 0)%nat by lia. apply Hbefore. lia.
Qed.

End Polling.



Lemma history_ready_of_outputs (prompt_id : string) (history record : list (string * value))
      (outputs : value) :
  Py.dict_lookup prompt_id history = Some (VDict record) ->
  Py.dict_lookup "outputs" record = Some outputs ->
  Py.truthy outputs = true ->
  history_ready (VStr prompt_id) (VDict history) = Ok true.
Proof.
  unfold history_ready, Py.contains, Py.subscript, Py.dict_has.
  intros Hrecord Hsome Htruthy.
  rewrite Hrecord. cbn. rewrite Hsome, Htruthy. reflexivity.
Qed.






(** ** Path resolution *)

Section Resolution.

Variable w : World.
Variable cfg : Config.

(** The backend reported a path and it exists: it is chosen. *)
Lemma choose_path_reported (constructed full : string) (tr : trace) :
  full <> "" ->
  path_exists w full = true ->
  choose_path w constructed (VStr full) tr =
  (Ok (VStr full), EvPathExists (VStr full) :: tr).
Proof.
  intros Hne Hfull. unfold choose_path, bind. cbn [Py.truthy].
  destruct (String.eqb_spec full ""); [contradiction |]. cbn.
  rewrite Hfull. reflexivity.
Qed.

(** The reported path does not exist and the constructed one does: the
    constructed one is chosen. *)
Lemma choose_path_constructed (constructed full : string) (tr : trace) :
  path_exists w full = false ->
  path_exists w constructed = true ->
  exists tr',
    choose_path w constructed (VStr full) tr = (Ok (VStr constructed), tr').
Proof.
  intros Hfull Hbuilt. unfold choose_path, bind. cbn [Py.truthy].
  destruct (String.eqb full ""); cbn; rewrite ?Hfull, Hbuilt; cbn;
    eexists; reflexivity.
Qed.

(** Neither exists: the reported path is chosen, whatever it is. *)
Lemma choose_path_fallback (constructed : string) (full_path : value) (tr : trace) :
  (full_path = VNone \/ exists full, full_path = VStr full /\ path_exists w full = false) ->
  path_exists w constructed = false ->
  exists tr', choose_path w constructed full_path tr = (Ok full_path, tr').
Proof.
  intros [-> | (full & -> & Hfull)] Hbuilt; unfold choose_path, bind; cbn [Py.truthy].
  - cbn. rewrite Hbuilt. cbn. eexists; reflexivity.
  - destruct (String.eqb full ""); cbn; rewrite ?Hfull, Hbuilt; cbn;
      eexists; reflexivity.
Qed.

(** A chosen path that is a string and is not on disk gives the error
    payload, provided its directory, when it exists, can be listed. *)
Lemma deliver_missing (path : string) (job_id : value) (tr : trace) :
  path_exists w path = false ->
  (path_exists w (OsPath.dirname path) = true ->
   exists names, listdir w (OsPath.dirname path) = Ok names) ->
  exists tr', deliver w (VStr path) job_id tr = (Ok (file_missing path), tr').
Proof.
  intros Hpath Hdir. unfold deliver, bind, lift, fspath, os_path_exists.
  destruct (path_exists w (OsPath.dirname path)) eqn:Hthere.
  - destruct (Hdir eq_refl) as (names & Hnames).
    unfold os_listdir. rewrite Hnames, Hpath. eexists; reflexivity.
  - unfold ret. rewrite Hpath. eexists; reflexivity.
Qed.

(** A chosen path that is on disk is handed to the bucket upload. *)
Lemma deliver_found (path : string) (job_id : value) (tr : trace) (url : string) :
  path_exists w path = true ->
  (path_exists w (OsPath.dirname path) = true ->
   exists names, listdir w (OsPath.dirname path) = Ok names) ->
  upload_image w job_id path = Ok url ->
  exists tr',
    deliver w (VStr path) job_id tr =
      (Ok (VDict (status_message "success" url)),
       EvUploadImage job_id path :: tr').
Proof.
  intros Hpath Hdir Hurl.
  unfold deliver, bind, lift, fspath, os_path_exists, os_path_getsize,
    rp_upload_upload_image.
  destruct (path_exists w (OsPath.dirname path)) eqn:Hthere.
  - destruct (Hdir eq_refl) as (names & Hnames).
    unfold os_listdir. rewrite Hnames, Hpath, Hurl. eexists; reflexivity.
  - unfold ret. rewrite Hpath, Hurl. eexists; reflexivity.
Qed.

End Resolution.

(** C2.  The claim's middle case does not hold when the entry carries no
    [fullpath]: if the scan ends on a candidate without a reported path and
    the constructed path is not on disk, [process_output_files] chooses
    [None] as the path and raises [TypeError] at [os.path.dirname] (line 263),
    after a single look at the disk; it does not return the
    file-does-not-exist payload. *)
Theorem missing_file_without_fullpath_raises
        (w : World) (cfg : Config) (outputs job_id : value) (tr : trace)
        (output_file : string) :
  scan_outputs outputs = Ok (VStr output_file, VNone) ->
  path_exists w (COMFY_OUTPUT_PATH cfg ++ "/" ++ output_file) = false ->
  process_output_files w cfg outputs job_id tr =
  (Raise (Exn TypeError "expected str, bytes or os.PathLike object, not NoneType"),
   EvPathExists (VStr (COMFY_OUTPUT_PATH cfg ++ "/" ++ output_file)) :: tr).
Proof.
  intros Hscan Hbuilt.
  unfold process_output_files, bind, lift. rewrite Hscan. cbn [fst snd str].
  unfold choose_path, bind. cbn [Py.truthy ret]. unfold os_path_exists.
  rewrite Hbuilt. reflexivity.
Qed.

Lemma missing_file_without_fullpath_raises_witness :
  process_output_files Demo.idle Demo.config Demo.saved_image_outputs (VStr "job-1") [] =
  (Raise (Exn TypeError "expected str, bytes or os.PathLike object, not NoneType"),
   [EvPathExists (VStr "/comfyui/output/a.png")]).
Proof.
  apply (missing_file_without_fullpath_raises
           Demo.idle Demo.config Demo.saved_image_outputs (VStr "job-1") [] "a.png");
    reflexivity.
Defined.

(** ** The scan of the outputs *)

Lemma take_entry_ok (entry : value) (cand : candidate) :
  entry_candidate entry = Some cand -> take_entry entry = Ok cand.
Proof.
  destruct entry as [| | | |l|kvs]; try discriminate.
  unfold entry_candidate, take_entry, Py.item, Py.subscript, Py.get.
  destruct (Py.dict_lookup "subfolder" kvs) as [[| | |subfolder| |]|]; try discriminate.
  destruct (Py.dict_lookup "filename" kvs) as [[| | |filename| |]|]; try discriminate.
  intros [= <-]. reflexivity.
Qed.

Lemma scan_entries_ok (entries : list value) :
  forall cand,
    forallb entry_ok entries = true ->
    scan_entries entries cand = Ok (overwrite entries cand).
Proof.
  induction entries as [|entry rest IH]; intros cand Hok.
  - reflexivity.
  - cbn in Hok. apply andb_prop in Hok. destruct Hok as (Hentry & Hrest).
    unfold entry_ok in Hentry.
    destruct (entry_candidate entry) as [c|] eqn:Hc; [| discriminate].
    cbn [scan_entries overwrite fold_left]. rewrite (take_entry_ok entry c Hc), Hc.
    cbn [bindR]. apply IH, Hrest.
Qed.

Lemma scan_key_ok (key : string) (kvs : list (string * value)) (cand : candidate) :
  listing_ok key kvs = true ->
  scan_key key (VDict kvs) cand = Ok (overwrite (listed_under key (VDict kvs)) cand).
Proof.
  unfold listing_ok, scan_key, listed_under, Py.contains, Py.dict_has,
    Py.item, Py.subscript.
  destruct (Py.dict_lookup key kvs) as [[| | | |l|]|]; try discriminate.
  - intros Hok. cbn. apply scan_entries_ok, Hok.
  - reflexivity.
Qed.

Lemma overwrite_app (xs ys : list value) (cand : candidate) :
  overwrite (xs ++ ys) cand = overwrite ys (overwrite xs cand).
Proof. unfold overwrite. apply fold_left_app. Qed.

Lemma scan_nodes_ok (nodes : list (string * value)) :
  forall cand,
    outputs_ok nodes = true ->
    scan_nodes nodes cand = Ok (overwrite (all_entries nodes) cand).
Proof.
  induction nodes as [|[node_id node_output] rest IH]; intros cand Hok.
  - reflexivity.
  - cbn in Hok. apply andb_prop in Hok. destruct Hok as (Hnode & Hrest).
    destruct node_output as [| | | | |kvs]; try discriminate.
    cbn in Hnode. apply andb_prop in Hnode. destruct Hnode as (Himages & Hgifs).
    cbn [scan_nodes all_entries flat_map snd].
    rewrite (scan_key_ok "images" kvs cand Himages). cbn [bindR].
    rewrite (scan_key_ok "gifs" kvs _ Hgifs). cbn [bindR].
    rewrite IH by exact Hrest.
    unfold node_entries. rewrite !overwrite_app. reflexivity.
Qed.

Lemma all_entries_ok (nodes : list (string * value)) :
  outputs_ok nodes = true -> forallb entry_ok (all_entries nodes) = true.
Proof.
  induction nodes as [|[node_id node_output] rest IH]; intros Hok.
  - reflexivity.
  - cbn in Hok. apply andb_prop in Hok. destruct Hok as (Hnode & Hrest).
    change (all_entries ((node_id, node_output) :: rest))
      with (node_entries node_output ++ all_entries rest)%list.
    rewrite forallb_app, (IH Hrest), andb_true_r.
    destruct node_output as [| | | | |kvs]; try discriminate.
    cbn in Hnode. apply andb_prop in Hnode. destruct Hnode as (Himages & Hgifs).
    unfold node_entries, listed_under, listing_ok in *. rewrite forallb_app.
    destruct (Py.dict_lookup "images" kvs) as [[| | | |l|]|]; try discriminate;
      destruct (Py.dict_lookup "gifs" kvs) as [[| | | |l'|]|]; try discriminate;
      cbn; rewrite ?Himages, ?Hgifs; reflexivity.
Qed.

(** After a scan over entries that are all well formed, the candidate is
    that of the entry in the last position. *)
Lemma overwrite_last (entries : list value) :
  forall cand,
    forallb entry_ok entries = true ->
    entries <> [] ->
    exists entry c,
      nth_error entries (List.length entries - 1) = Some entry /\
      entry_candidate entry = Some c /\
      overwrite entries cand = c.
Proof.
  induction entries as [|entry rest IH]; intros cand Hok Hne; [contradiction |].
  cbn in Hok. apply andb_prop in Hok. destruct Hok as (Hentry & Hrest).
  unfold entry_ok in Hentry.
  destruct (entry_candidate entry) as [c|] eqn:Hc; [| discriminate].
  destruct rest as [|next rest'].
  - exists entry, c. cbn. rewrite Hc. repeat split; reflexivity.
  - destruct (IH c Hrest) as (last & c' & Hnth & Hcand & Hover); [discriminate |].
    exists last, c'. repeat split; try assumption.
    + cbn [List.length] in *. replace (S (S (List.length rest')) - 1)%nat
        with (S (S (List.length rest') - 1))%nat by lia.
      exact Hnth.
    + unfold overwrite in *. cbn [fold_left] in *. rewrite Hc. exact Hover.
Qed.

Lemma entry_candidate_is_path (entry : value) (cand : candidate) :
  entry_candidate entry = Some cand ->
  exists output_file, fst cand = VStr output_file.
Proof.
  destruct entry as [| | | |l|kvs]; try discriminate. unfold entry_candidate.
  destruct (Py.dict_lookup "subfolder" kvs) as [[| | |subfolder| |]|]; try discriminate.
  destruct (Py.dict_lookup "filename" kvs) as [[| | |filename| |]|]; try discriminate.
  intros [= <-]. eexists; reflexivity.
Qed.

(** C3.  Let [outputs] be a mapping of well-formed node outputs and let [N]
    be the number of entries under their [images] and [gifs] keys, counted in
    mapping-iteration order with the [images] of a node before its [gifs].
    If [N > 0], the candidate after the scan is the one of the [N]-th entry
    (its subfolder joined with its file name, and its optional full path),
    and the resolver goes on to choose between the path constructed from it
    and its full path.  If [N = 0], the resolver returns
    [{"status": "error", "message": "No output file found in the generation results"}]
    and leaves the trace as it was: no filesystem call, no bucket upload. *)
Theorem output_resolution_is_last_write_wins
        (w : World) (cfg : Config) (nodes : list (string * value))
        (job_id : value) (tr : trace) :
  outputs_ok nodes = true ->
  let entries := all_entries nodes in
  let N := List.length entries in
  ((0 < N)%nat ->
   exists entry output_file full_path,
     nth_error entries (N - 1) = Some entry /\
     entry_candidate entry = Some (VStr output_file, full_path) /\
     scan_outputs (VDict nodes) = Ok (VStr output_file, full_path) /\
     process_output_files w cfg (VDict nodes) job_id tr =
       bind (choose_path w (COMFY_OUTPUT_PATH cfg ++ "/" ++ output_file) full_path)
            (fun local_file_path => deliver w local_file_path job_id) tr)
  /\
  (N = 0%nat ->
   process_output_files w cfg (VDict nodes) job_id tr = (Ok no_output_found, tr)).
Proof.
  intros Hok entries N.
  assert (Hscan : scan_outputs (VDict nodes) = Ok (overwrite entries (VNone, VNone))).
  { unfold scan_outputs. cbn. apply scan_nodes_ok, Hok. }
  split.
  - intros Hpos.
    destruct (overwrite_last entries (VNone, VNone)) as (entry & c & Hnth & Hc & Hover).
    + apply all_entries_ok, Hok.
    + intros Hnil. subst N. rewrite Hnil in Hpos. cbn in Hpos. lia.
    + destruct (entry_candidate_is_path entry c Hc) as (output_file & Hfst).
      destruct c as [c1 full_path]. cbn in Hfst. subst c1.
      exists entry, output_file, full_path.
      rewrite Hover in Hscan.
      repeat split; try assumption.
      unfold process_output_files. unfold bind at 1. unfold lift.
      rewrite Hscan. reflexivity.
  - intros Hzero. subst N. apply length_zero_iff_nil in Hzero.
    rewrite Hzero in Hscan.
    unfold process_output_files, bind, lift. rewrite Hscan. reflexivity.
Qed.

Lemma output_resolution_is_last_write_wins_witness :
  exists entry,
    nth_error (all_entries Demo.two_nodes) 2 = Some entry /\
    entry_candidate entry = Some (VStr "clips/b.gif", VStr "/data/clips/b.gif") /\
    scan_outputs (VDict Demo.two_nodes) = Ok (VStr "clips/b.gif", VStr "/data/clips/b.gif").
Proof.
  destruct (output_resolution_is_last_write_wins
              Demo.idle Demo.config Demo.two_nodes (VStr "job-1") [] eq_refl)
    as (Hlast & _).
  assert (Hpos : (0 < List.length (all_entries Demo.two_nodes))%nat) by (cbn; lia).
  destruct (Hlast Hpos) as (entry & output_file & full_path & Hnth & Hc & Hscan & _).
  cbn in Hnth. injection Hnth as <-. cbn in Hc. injection Hc as <- <-.
  eexists. split; [reflexivity | split; [reflexivity | exact Hscan]].
Defined.

(** ** Image upload *)

Lemma posts_after_post (url : string) (name : value) (blob : list Z) (tr : trace) :
  posts (EvRequestsPost url name blob :: tr) = S (posts tr).
Proof. unfold posts. rewrite count_cons. reflexivity. Qed.

(** The loop adds one line per answer to one of the two lists, in order. *)
Lemma upload_loop_answers (w : World) (images : list value) :
  forall responses upload_errors tr answers,
    upload_answers w (posts tr) images = Some answers ->
    exists tr',
      upload_loop w images responses upload_errors tr =
        (Ok (responses ++ map (success_line w) (filter accepted answers),
             upload_errors ++ map (error_line w) (filter rejected answers))%list, tr') /\
      posts tr' = (posts tr + List.length images)%nat /\
      List.length answers = List.length images.
Proof.
  induction images as [|image rest IH]; intros responses upload_errors tr answers Hans.
  - cbn in Hans. injection Hans as <-. exists tr. cbn. rewrite !app_nil_r.
    repeat split; lia.
  - cbn [upload_answers] in Hans. cbn [upload_loop].
    unfold bind at 1. unfold lift at 1.
    destruct (Py.item image "name") as [name|]; [| discriminate].
    unfold bind at 1. unfold lift at 1.
    destruct (Py.item image "image") as [image_data|]; [| discriminate].
    unfold bind at 1. unfold lift at 1.
    destruct (b64decode w image_data) as [blob|]; [| discriminate].
    unfold bind at 1. unfold http_post at 1. fold (posts tr).
    destruct (requests_post w (posts tr) upload_url name blob) as [response|];
      [| discriminate].
    destruct (upload_answers w (S (posts tr)) rest) as [others|] eqn:Hothers;
      [| discriminate].
    cbn in Hans. injection Hans as <-.
    rewrite <- (posts_after_post upload_url name blob tr) in Hothers.
    assert (Hfilter :
              filter accepted ((name, response) :: others) =
                (if fst response =? 200 then (name, response) :: filter accepted others
                 else filter accepted others) /\
              filter rejected ((name, response) :: others) =
                (if fst response =? 200 then filter rejected others
                 else (name, response) :: filter rejected others)).
    { destruct (fst response =? 200) eqn:Hcode;
        cbn [filter]; unfold rejected, accepted; cbn [fst snd]; rewrite Hcode;
        split; reflexivity. }
    destruct Hfilter as (-> & ->).
    destruct (fst response =? 200); cbn [negb].
    + destruct (IH (List.app responses [("Successfully uploaded " ++ str w name)%string])
                  upload_errors _ others Hothers) as (tr' & Hrun & Hposts & Hlen).
      exists tr'. rewrite Hrun. rewrite posts_after_post in Hposts.
      cbn [map List.length]. rewrite <- app_assoc. cbn [app].
      repeat split; try lia.
    + destruct (IH responses
                  (List.app upload_errors
                     [("Error uploading " ++ str w name ++ ": " ++ snd response)%string])
                  _ others Hothers) as (tr' & Hrun & Hposts & Hlen).
      exists tr'. rewrite Hrun. rewrite posts_after_post in Hposts.
      cbn [map List.length]. rewrite <- app_assoc. cbn [app].
      repeat split; try lia.
Qed.

Lemma all_accepted (answers : list answer) :
  forallb accepted answers = true ->
  filter accepted answers = answers /\ filter rejected answers = [].
Proof.
  induction answers as [|a rest IH]; intros Hall; [split; reflexivity |].
  cbn in Hall. apply andb_prop in Hall. destruct Hall as (Ha & Hrest).
  destruct (IH Hrest) as (Hacc & Hrej).
  cbn [filter]. unfold rejected at 1. rewrite Ha, Hacc, Hrej. split; reflexivity.
Qed.

Lemma some_rejected (answers : list answer) :
  forallb accepted answers = false -> filter rejected answers <> [].
Proof.
  induction answers as [|a rest IH]; intros Hsome; [discriminate |].
  cbn in Hsome. cbn [filter]. unfold rejected at 1.
  destruct (accepted a); cbn in *; [apply IH, Hsome | discriminate].
Qed.

(** C6.  Let [images] be a list in which every image has a [name] and an
    [image] that decodes, and let every upload come back with a response;
    [answers] are these responses in order.  Then [upload_images] makes one
    POST per image and: (1) if every response has status 200, it returns
    [{"status": "success", "message": ..., "details": [...]}] whose [details]
    hold one success line per image, as many as there are images; (2) if
    some response has another status, it returns
    [{"status": "error", "message": "Some images failed to upload", "details": [...]}]
    whose [details] hold exactly one error line per response that is not
    200, in order. *)
Theorem upload_images_details
        (w : World) (images : list value) (tr : trace) (answers : list answer) :
  upload_answers w (posts tr) images = Some answers ->
  exists tr',
    posts tr' = (posts tr + List.length images)%nat /\
    (forallb accepted answers = true ->
     exists message details,
       upload_images w (VList images) tr =
         (Ok (VDict [("status", VStr "success"); ("message", VStr message);
                     ("details", VList details)]), tr') /\
       details =
         map (fun a => VStr ("Successfully uploaded " ++ str w (fst a))) answers /\
       List.length details = List.length images)
    /\
    (forallb accepted answers = false ->
     exists details,
       upload_images w (VList images) tr =
         (Ok (VDict [("status", VStr "error");
                     ("message", VStr "Some images failed to upload");
                     ("details", VList details)]), tr') /\
       details =
         map (fun a => VStr ("Error uploading " ++ str w (fst a) ++ ": " ++ snd (snd a)))
           (filter (fun a => negb (fst (snd a) =? 200)) answers) /\
       List.length details =
         List.length (filter (fun a => negb (fst (snd a) =? 200)) answers) /\
       (0 < List.length details)%nat).
Proof.
  intros Hans.
  destruct images as [|image rest].
  - cbn in Hans. injection Hans as <-. exists tr.
    split; [cbn; lia |]. split.
    + intros _. exists "No images to upload", []. repeat split.
    + discriminate.
  - destruct (upload_loop_answers w (image :: rest) [] [] tr answers Hans)
      as (tr' & Hrun & Hposts & Hlen).
    exists tr'. split; [exact Hposts |].
    unfold upload_images. cbn [Py.truthy negb Py.iter].
    unfold bind at 1 3. unfold lift.
    unfold bind at 1 2. rewrite Hrun. cbn [app fst snd].
    split.
    + intros Hall. destruct (all_accepted answers Hall) as (Hacc & Hrej).
      rewrite Hacc, Hrej. cbn [map].
      exists "All images uploaded successfully".
      exists (map (fun a => VStr ("Successfully uploaded " ++ str w (fst a))) answers).
      split; [| split; [reflexivity | rewrite length_map; exact Hlen]].
      unfold ret, upload_outcome. rewrite map_map. reflexivity.
    + intros Hsome. pose proof (some_rejected answers Hsome) as Hne.
      remember (filter rejected answers) as failed eqn:Hfailed.
      exists (map (fun a => VStr ("Error uploading " ++ str w (fst a) ++ ": "
                                    ++ snd (snd a))) failed).
      destruct failed as [|a failed]; [contradiction |].
      split; [| split; [| split; [| cbn; lia]]].
      * cbn [map]. unfold ret, upload_outcome. cbn [map]. rewrite map_map. reflexivity.
      * rewrite Hfailed. reflexivity.
      * rewrite length_map, Hfailed. reflexivity.
Qed.

Lemma upload_images_details_witness :
  exists tr',
    upload_images Demo.picky
      (VList [Demo.image "a.png" "YWJj"; Demo.image "b.png" "YQ=="]) [] =
    (Ok (VDict [("status", VStr "error");
                ("message", VStr "Some images failed to upload");
                ("details", VList [VStr "Error uploading b.png: disk full"])]), tr').
Proof.
  destruct (upload_images_details Demo.picky
              [Demo.image "a.png" "YWJj"; Demo.image "b.png" "YQ=="] []
              [(VStr "a.png", (200, "{}")); (VStr "b.png", (500, "disk full"))]
              eq_refl)
    as (tr' & _ & _ & Herror).
  destruct (Herror eq_refl) as (details & Hrun & Hdetails & _).
  exists tr'. rewrite Hrun, Hdetails. reflexivity.
Defined.

(** C7.  On [None] and on the empty list, [upload_images] returns
    [{"status": "success", "message": "No images to upload", "details": []}]
    and leaves the trace as it was: it makes no HTTP request, nor any other
    call to the outside. *)
Theorem upload_images_nothing_to_upload (w : World) (tr : trace) :
  upload_images w VNone tr =
    (Ok (upload_outcome "success" "No images to upload" []), tr) /\
  upload_images w (VList []) tr =
    (Ok (upload_outcome "success" "No images to upload" []), tr) /\
  upload_outcome "success" "No images to upload" [] =
    VDict [("status", VStr "success"); ("message", VStr "No images to upload");
           ("details", VList [])].
Proof. repeat split. Qed.

(** ** Availability probe *)

Section Probe.

Variable w : World.
Variable url : string.
Variable delay : Z.
Hypothesis delay_ok : sleepable delay.

Lemma probes_turn (tr : trace) :
  probes (EvSleep delay :: EvRequestsGet url :: tr) = S (probes tr).
Proof. unfold probes. rewrite !count_cons. reflexivity. Qed.

Lemma check_server_loop_down (n : nat) (tr : trace) :
  attempt_down w url (probes tr) = true ->
  check_server_loop w url delay (S n) tr =
  check_server_loop w url delay n (EvSleep delay :: EvRequestsGet url :: tr).
Proof.
  unfold attempt_down. intros Hdown.
  cbn [check_server_loop]. unfold bind at 1. unfold try_except, bind at 1.
  unfold http_get. fold (probes tr).
  destruct (requests_get w (probes tr) url) as [code|e].
  - unfold ret at 1. apply negb_true_iff in Hdown. rewrite Hdown.
    unfold bind. rewrite (sleep_accepts delay _ delay_ok). reflexivity.
  - rewrite Hdown. unfold ret at 1.
    unfold bind. rewrite (sleep_accepts delay _ delay_ok). reflexivity.
Qed.

Lemma check_server_loop_up (n : nat) (tr : trace) :
  attempt_up w url (probes tr) = true ->
  check_server_loop w url delay (S n) tr = (Ok true, EvRequestsGet url :: tr).
Proof.
  unfold attempt_up. intros Hup.
  cbn [check_server_loop]. unfold bind at 1. unfold try_except, bind at 1.
  unfold http_get. fold (probes tr).
  destruct (requests_get w (probes tr) url) as [code|e]; [| discriminate].
  unfold ret at 1. rewrite Hup. reflexivity.
Qed.

Lemma check_server_loop_first_up (k : nat) :
  forall n tr,
    (k < n)%nat ->
    (forall i, (i < k)%nat -> attempt_down w url (probes tr + i) = true) ->
    attempt_up w url (probes tr + k) = true ->
    exists tr',
      check_server_loop w url delay n tr = (Ok true, EvRequestsGet url :: tr') /\
      probes (EvRequestsGet url :: tr') = (probes tr + k + 1)%nat.
Proof.
  induction k as [|k IH]; intros n tr Hk Hbefore Hup.
  - destruct n as [|n]; [lia |].
    rewrite Nat.add_0_r in Hup. rewrite (check_server_loop_up n tr Hup).
    exists tr. split; [reflexivity |].
    unfold probes. rewrite count_cons. cbn. lia.
  - destruct n as [|n]; [lia |].
    rewrite check_server_loop_down.
    + destruct (IH n (EvSleep delay :: EvRequestsGet url :: tr)) as (tr' & Hrun & Hcount).
      * lia.
      * intros i Hi. rewrite probes_turn.
        replace (S (probes tr) + i)%nat with (probes tr + S i)%nat by lia.
        apply Hbefore. lia.
      * rewrite probes_turn.
        replace (S (probes tr) + k)%nat with (probes tr + S k)%nat by lia.
        exact Hup.
      * exists tr'. split; [exact Hrun |]. rewrite Hcount, probes_turn. lia.
    + replace (probes tr) with (probes tr + 0)%nat by lia. apply Hbefore. lia.
Qed.

Lemma check_server_loop_all_down (n : nat) :
  forall tr,
    (forall i, (i < n)%nat -> attempt_down w url (probes tr + i) = true) ->
    exists tr',
      check_server_loop w url delay n tr = (Ok false, tr') /\
      probes tr' = (probes tr + n)%nat.
Proof.
  induction n as [|n IH]; intros tr Hall.
  - exists tr. split; [reflexivity | lia].
  - rewrite check_server_loop_down.
    + destruct (IH (EvSleep delay :: EvRequestsGet url :: tr)) as (tr' & Hrun & Hcount).
      * intros i Hi. rewrite probes_turn.
        replace (S (probes tr) + i)%nat with (probes tr + S i)%nat by lia.
        apply Hall. lia.
      * exists tr'. split; [exact Hrun |]. rewrite Hcount, probes_turn. lia.
    + replace (probes tr) with (probes tr + 0)%nat by lia. apply Hall. lia.
Qed.

End Probe.

(** The handler passes from validation to the upload whatever the probe
    answered. *)
Lemma handler_after_check_server
      (w : World) (cfg : Config) (job job_input workflow images : value)
      (up : bool) (tr tr1 : trace) :
  Py.item job "input" = Ok job_input ->
  validate_input w job_input =
    Ok (VDict [("workflow", workflow); ("images", images)], VNone) ->
  check_server w ("http://" ++ COMFY_HOST)
    COMFY_API_AVAILABLE_MAX_RETRIES COMFY_API_AVAILABLE_INTERVAL_MS tr = (Ok up, tr1) ->
  handler w cfg job tr = after_check w cfg job workflow images tr1.
Proof.
  intros Hinput Hvalid Hcheck.
  unfold handler.
  set (probe := check_server w ("http://" ++ COMFY_HOST)
                  COMFY_API_AVAILABLE_MAX_RETRIES COMFY_API_AVAILABLE_INTERVAL_MS) in *.
  unfold bind at 1. unfold lift at 1. rewrite Hinput.
  unfold bind at 1. unfold lift at 1. rewrite Hvalid.
  cbn [Py.truthy]. unfold bind at 1. unfold lift at 1.
  cbn [Py.item Py.subscript Py.dict_lookup String.eqb Ascii.eqb Bool.eqb].
  unfold bind at 1. unfold lift at 1.
  cbn [Py.get Py.dict_lookup String.eqb Ascii.eqb Bool.eqb].
  unfold bind at 1. rewrite Hcheck. reflexivity.
Qed.

(** C9.  Let the delay be a length that [time.sleep] accepts, as the 50 ms
    of the handler are, and let [n] be the attempt budget.
    (1) If the attempts before the [k]-th one ([k < n]) get a status other
    than 200 or fail with a transport exception, and the [k]-th one gets
    200, then [check_server] returns [True] right after that GET, having made
    [k + 1] of them.  (2) If all [n] attempts get a status other than 200 or
    fail with a transport exception, [check_server] returns [False] after
    exactly [n] GETs.  (3) Once the input is validated, the handler goes on
    with the image upload and what follows it ([after_check]) from the trace
    the probe left, whether the probe answered [True] or [False]. *)
Theorem check_server_probes_and_handler_ignores_it
        (w : World) (url : string) (retries delay : Z) (tr : trace) :
  sleepable delay ->
  let n := Z.to_nat retries in
  (forall k,
     (k < n)%nat ->
     (forall i, (i < k)%nat -> attempt_down w url (probes tr + i) = true) ->
     attempt_up w url (probes tr + k) = true ->
     exists tr',
       check_server w url retries delay tr = (Ok true, EvRequestsGet url :: tr') /\
       probes (EvRequestsGet url :: tr') = (probes tr + k + 1)%nat)
  /\
  ((forall i, (i < n)%nat -> attempt_down w url (probes tr + i) = true) ->
   exists tr',
     check_server w url retries delay tr = (Ok false, tr') /\
     probes tr' = (probes tr + n)%nat)
  /\
  (forall cfg job job_input workflow images up tr1,
     Py.item job "input" = Ok job_input ->
     validate_input w job_input =
       Ok (VDict [("workflow", workflow); ("images", images)], VNone) ->
     check_server w ("http://" ++ COMFY_HOST)
       COMFY_API_AVAILABLE_MAX_RETRIES COMFY_API_AVAILABLE_INTERVAL_MS tr = (Ok up, tr1) ->
     handler w cfg job tr = after_check w cfg job workflow images tr1).
Proof.
  intros Hdelay n. split; [| split].
  - intros k Hk Hbefore Hup.
    apply (check_server_loop_first_up w url delay Hdelay k n tr Hk Hbefore Hup).
  - intros Hall. apply (check_server_loop_all_down w url delay Hdelay n tr Hall).
  - intros cfg job job_input workflow images up tr1.
    apply handler_after_check_server.
Qed.

Lemma check_server_probes_and_handler_ignores_it_witness :
  sleepable COMFY_API_AVAILABLE_INTERVAL_MS /\
  (exists tr1,
     check_server Demo.deaf ("http://" ++ COMFY_HOST)
       COMFY_API_AVAILABLE_MAX_RETRIES COMFY_API_AVAILABLE_INTERVAL_MS [] = (Ok false, tr1) /\
     probes tr1 = 500%nat) /\
  (exists tr',
     handler Demo.deaf Demo.config (Demo.job (VList [Demo.image "a.png" "YWJj"])) [] =
       (Ok timeout_result, tr') /\
     posts tr' = 1%nat /\
     count is_urlopen_post tr' = 1%nat).
Proof.
  assert (Hdelay : sleepable COMFY_API_AVAILABLE_INTERVAL_MS)
    by (unfold sleepable, COMFY_API_AVAILABLE_INTERVAL_MS, SLEEP_MAX_MS; lia).
  destruct (check_server_probes_and_handler_ignores_it
              Demo.deaf ("http://" ++ COMFY_HOST)
              COMFY_API_AVAILABLE_MAX_RETRIES COMFY_API_AVAILABLE_INTERVAL_MS [] Hdelay)
    as (_ & Hdown & Hignored).
  split; [exact Hdelay |]. split.
  - apply Hdown. intros i _. reflexivity.
  - eexists.
    rewrite (Hignored Demo.config (Demo.job (VList [Demo.image "a.png" "YWJj"]))
               (VDict [("workflow", Demo.workflow);
                       ("images", VList [Demo.image "a.png" "YWJj"])])
               Demo.workflow (VList [Demo.image "a.png" "YWJj"]) false
               (snd (check_server Demo.deaf ("http://" ++ COMFY_HOST)
                       COMFY_API_AVAILABLE_MAX_RETRIES
                       COMFY_API_AVAILABLE_INTERVAL_MS []))
               eq_refl eq_refl);
      [| vm_compute; reflexivity].
    split; [vm_compute; reflexivity | split; vm_compute; reflexivity].
Defined.

(** ** Input validation *)

Lemma validate_fields_non_mapping (v : value) :
  is_mapping v = false ->
  validate_fields v =
  Raise (Exn AttributeError ("'" ++ Py.type_name v ++ "' object has no attribute 'get'")).
Proof. destruct v; intros H; try discriminate; reflexivity. Qed.

(** What [validate_input] returns when it returns: a rejection with one of
    its four messages, or the validated data with no message. *)
Lemma validate_fields_returns (v data message : value) :
  validate_fields v = Ok (data, message) ->
  (data = VNone /\ exists m, message = VStr m /\ In m validation_messages) \/
  (message = VNone /\
   exists workflow images,
     data = VDict [("workflow", workflow); ("images", images)] /\
     workflow <> VNone).
Proof.
  destruct v as [| | | | |kvs]; try discriminate.
  unfold validate_fields, Py.get, bindR.
  destruct (Py.dict_lookup "workflow" kvs) as [workflow|].
  - destruct workflow; cbn [is_none];
      try (destruct (Py.dict_lookup "images" kvs) as [images|]; cbn [is_none negb];
           [ destruct (is_none images) eqn:Hnone; cbn [negb];
             [ intros [= <- <-]; right; split; [reflexivity |];
               eexists _, _; split; [reflexivity | discriminate]
             | destruct (images_malformed images) as [[|]|]; try discriminate;
               intros [= <- <-];
               [ left; split; [reflexivity |]; eexists; split; [reflexivity |];
                 cbn; tauto
               | right; split; [reflexivity |];
                 eexists _, _; split; [reflexivity | discriminate] ] ]
           | intros [= <- <-]; right; split; [reflexivity |];
             eexists _, _; split; [reflexivity | discriminate] ]).
    intros [= <- <-]. left. split; [reflexivity |].
    eexists; split; [reflexivity |]. cbn; tauto.
  - cbn [is_none]. intros [= <- <-]. left. split; [reflexivity |].
    eexists; split; [reflexivity |]. cbn; tauto.
Qed.

Lemma validate_input_returns (w : World) (v data message : value) :
  validate_input w v = Ok (data, message) ->
  (data = VNone /\ exists m, message = VStr m /\ In m validation_messages) \/
  (message = VNone /\
   exists workflow images,
     data = VDict [("workflow", workflow); ("images", images)] /\
     workflow <> VNone).
Proof.
  destruct v as [| | |s| |]; cbn [validate_input];
    try apply validate_fields_returns.
  - intros [= <- <-]. left. split; [reflexivity |].
    eexists; split; [reflexivity |]. cbn; tauto.
  - destruct (json_loads w s) as [parsed|e].
    + apply validate_fields_returns.
    + destruct (is_class JSONDecodeError e); [| discriminate].
      intros [= <- <-]. left. split; [reflexivity |].
      eexists; split; [reflexivity |]. cbn; tauto.
Qed.

(** The rejections of [validate_input] on inputs that are null, text that
    does not parse, or mappings with members that are mappings. *)
Lemma validate_input_rejects (w : World) :
  validate_input w VNone = Ok (VNone, VStr "Please provide input") /\
  (forall s e,
     json_loads w s = Raise e -> exn_class e = JSONDecodeError ->
     validate_input w (VStr s) = Ok (VNone, VStr "Invalid JSON format in input")) /\
  (forall kvs,
     Py.dict_lookup "workflow" kvs = None \/ Py.dict_lookup "workflow" kvs = Some VNone ->
     validate_input w (VDict kvs) = Ok (VNone, VStr "Missing 'workflow' parameter")) /\
  (forall kvs workflow images,
     Py.dict_lookup "workflow" kvs = Some workflow -> workflow <> VNone ->
     Py.dict_lookup "images" kvs = Some images -> images <> VNone ->
     images_malformed images = Ok true ->
     validate_input w (VDict kvs) =
       Ok (VNone, VStr "'images' must be a list of objects with 'name' and 'image' keys")).
Proof.
  repeat split.
  - intros s e Hparse Hclass. cbn. rewrite Hparse. unfold is_class. rewrite Hclass.
    reflexivity.
  - intros kvs [H | H]; cbn; unfold validate_fields, Py.get, bindR; rewrite H;
      reflexivity.
  - intros kvs workflow images Hw Hne Hi Hsome Hbad.
    cbn. unfold validate_fields, Py.get, bindR. rewrite Hw, Hi.
    destruct workflow; try contradiction; cbn [is_none];
      destruct images; try contradiction; cbn [is_none negb]; rewrite Hbad;
        reflexivity.
Qed.

(** A list of mappings is malformed as soon as one of them lacks [name] or
    [image]; anything that is not a list is malformed. *)
Lemma images_malformed_mappings (members : list (list (string * value))) :
  images_malformed (VList (map VDict members)) =
  Ok (negb (forallb (fun kvs => Py.dict_has "name" kvs && Py.dict_has "image" kvs)
              members)).
Proof.
  unfold images_malformed.
  assert (H : all_name_and_image (map VDict members) =
              Ok (forallb (fun kvs => Py.dict_has "name" kvs && Py.dict_has "image" kvs)
                    members)).
  { induction members as [|kvs rest IH]; [reflexivity |].
    cbn [map all_name_and_image forallb Py.contains bindR].
    destruct (Py.dict_has "name" kvs); cbn [andb bindR]; [| reflexivity].
    destruct (Py.dict_has "image" kvs); cbn [andb]; [exact IH | reflexivity]. }
  rewrite H. reflexivity.
Qed.

(** C10.  [validate_input] raises [AttributeError], where its contract
    promises a pair, (1) on every input that is not null, not a string and
    not a mapping, a list or a number for example, and (2) on every string
    that parses to something that is not a mapping, a list or a number for
    example: line 50 calls [.get] on whatever it has at that point. *)
Theorem validate_input_raises_on_non_mapping (w : World) :
  (forall v,
     v <> VNone -> (forall s, v <> VStr s) -> is_mapping v = false ->
     validate_input w v =
     Raise (Exn AttributeError
              ("'" ++ Py.type_name v ++ "' object has no attribute 'get'")))
  /\
  (forall s parsed,
     json_loads w s = Ok parsed -> is_mapping parsed = false ->
     validate_input w (VStr s) =
     Raise (Exn AttributeError
              ("'" ++ Py.type_name parsed ++ "' object has no attribute 'get'"))).
Proof.
  split.
  - intros v Hnone Hstr Hmap.
    destruct v as [| | |s| |]; try discriminate; try reflexivity.
    + contradiction.
    + exfalso. apply (Hstr s). reflexivity.
  - intros s parsed Hparse Hmap. cbn. rewrite Hparse.
    apply validate_fields_non_mapping, Hmap.
Qed.

Lemma validate_input_raises_on_non_mapping_witness :
  validate_input Demo.idle (VList [VInt 1; VInt 2]) =
    Raise (Exn AttributeError "'list' object has no attribute 'get'") /\
  validate_input Demo.idle (VStr "[]") =
    Raise (Exn AttributeError "'list' object has no attribute 'get'") /\
  validate_input Demo.idle (VStr "7") =
    Raise (Exn AttributeError "'int' object has no attribute 'get'").
Proof.
  destruct (validate_input_raises_on_non_mapping Demo.idle) as (Hdirect & Hparsed).
  split; [| split].
  - apply (Hdirect (VList [VInt 1; VInt 2])); [discriminate | discriminate | reflexivity].
  - apply (Hparsed "[]" (VList [])); reflexivity.
  - apply (Hparsed "7" (VInt 7)); reflexivity.
Defined.

(** C8.  The claim fails on a list of images with a member that is a number:
    [validate_input] raises [TypeError] at the test ["name" in image]
    (line 58) where the claim has it return a null value and the message
    about the shape of [images]; the fault escapes the handler, which has
    made no call to the outside by then.  A member that is a string
    containing both words passes the same test. *)
Theorem validate_input_raises_on_number_in_images
        (w : World) (cfg : Config) (workflow : list (string * value))
        (z : Z) (rest : list value) (job_id : value) (tr : trace) :
  let job_input :=
    VDict [("workflow", VDict workflow); ("images", VList (VInt z :: rest))] in
  validate_input w job_input =
    Raise (Exn TypeError "argument of type 'int' is not iterable") /\
  handler w cfg (VDict [("id", job_id); ("input", job_input)]) tr =
    (Raise (Exn TypeError "argument of type 'int' is not iterable"), tr) /\
  validate_input w
    (VDict [("workflow", VDict workflow); ("images", VList [VStr "name and image"])]) =
    Ok (VDict [("workflow", VDict workflow); ("images", VList [VStr "name and image"])],
        VNone).
Proof. repeat split. Qed.

(** The scenario of the null workflow: the handler returns the message of
    the validator and leaves the trace as it was. *)
Lemma handler_missing_workflow (w : World) (cfg : Config) (job_id : value) (tr : trace) :
  handler w cfg (VDict [("id", job_id); ("input", VDict [("workflow", VNone)])]) tr =
  (Ok (VDict [("error", VStr "Missing 'workflow' parameter")]), tr).
Proof. reflexivity. Qed.

(** ** What the stages of the handler return *)






(** ** The shape of the final result *)




Lemma final_shape_status_shape (cfg : Config) (v : value) :
  final_shape cfg v -> status_shape v.
Proof.
  intros (status & message & -> & Hstatus).
  exists status, message, (REFRESH_WORKER cfg). split; [reflexivity | exact Hstatus].
Qed.





(** ** Faults that escape the handler *)













(** * Further properties *)

(** ** Input validation *)

(** X1.  On a mapping with a workflow that is not null, [validate_input]
    accepts (1) an input without images, or with null images, and (2) an
    input whose images are a list of mappings that all have [name] and
    [image]; the validated data holds the workflow and the images as they
    came and nothing else of the input. *)
Theorem validate_input_accepts
        (w : World) (kvs : list (string * value)) (workflow : value) :
  Py.dict_lookup "workflow" kvs = Some workflow ->
  workflow <> VNone ->
  (Py.dict_lookup "images" kvs = None \/ Py.dict_lookup "images" kvs = Some VNone ->
   validate_input w (VDict kvs) =
     Ok (VDict [("workflow", workflow); ("images", VNone)], VNone))
  /\
  (forall members,
     Py.dict_lookup "images" kvs = Some (VList (map VDict members)) ->
     forallb has_name_and_image members = true ->
     validate_input w (VDict kvs) =
       Ok (VDict [("workflow", workflow); ("images", VList (map VDict members))],
           VNone)).
Proof.
  intros Hw Hne. split.
  - intros Himages. cbn. unfold validate_fields, Py.get, bindR. rewrite Hw.
    destruct workflow; try contradiction; cbn [is_none];
      destruct Himages as [-> | ->]; reflexivity.
  - intros members Himages Hall.
    cbn. unfold validate_fields, Py.get, bindR. rewrite Hw, Himages.
    pose proof (images_malformed_mappings members) as Hm.
    unfold has_name_and_image in Hall. rewrite Hall in Hm. cbn [negb] in Hm.
    destruct workflow; try contradiction; cbn [is_none negb]; rewrite Hm;
      reflexivity.
Qed.

Lemma validate_input_accepts_witness :
  validate_input Demo.idle
    (VDict [("workflow", Demo.workflow);
            ("images", VList [Demo.image "a.png" "YWJj"]);
            ("note", VStr "kept out")]) =
  Ok (VDict [("workflow", Demo.workflow);
             ("images", VList [Demo.image "a.png" "YWJj"])], VNone).
Proof.
  assert (Hne : Demo.workflow <> VNone) by discriminate.
  apply (proj2 (validate_input_accepts Demo.idle
                  [("workflow", Demo.workflow);
                   ("images", VList [Demo.image "a.png" "YWJj"]);
                   ("note", VStr "kept out")]
                  Demo.workflow eq_refl Hne)
           [[("name", VStr "a.png"); ("image", VStr "YWJj")]]);
    reflexivity.
Defined.

Lemma validate_fields_accepted (v workflow images : value) :
  validate_fields v = Ok (VDict [("workflow", workflow); ("images", images)], VNone) ->
  is_none workflow = false /\
  (is_none images = true \/ images_malformed images = Ok false).
Proof.
  destruct v as [| | | | |kvs]; try discriminate.
  unfold validate_fields, Py.get, bindR.
  destruct (Py.dict_lookup "workflow" kvs) as [wf|]; [| discriminate].
  destruct (is_none wf) eqn:Hwf; [discriminate |].
  destruct (Py.dict_lookup "images" kvs) as [imgs|].
  - destruct (is_none imgs) eqn:Himgs; cbn [negb].
    + intros [= <- <-]. split; [exact Hwf | left; exact Himgs].
    + destruct (images_malformed imgs) as [[|]|] eqn:Hbad; try discriminate.
      intros [= <- <-]. split; [exact Hwf | right; exact Hbad].
  - cbn [is_none negb]. intros [= <- <-]. split; [exact Hwf | left; reflexivity].
Qed.

Lemma validate_fields_again (workflow images : value) :
  is_none workflow = false ->
  is_none images = true \/ images_malformed images = Ok false ->
  validate_fields (VDict [("workflow", workflow); ("images", images)]) =
  Ok (VDict [("workflow", workflow); ("images", images)], VNone).
Proof.
  intros Hwf Himgs. unfold validate_fields, Py.get, bindR. cbn [Py.dict_lookup String.eqb Ascii.eqb Bool.eqb].
  rewrite Hwf.
  destruct (is_none images) eqn:Hnone; cbn [negb]; [reflexivity |].
  destruct Himgs as [H | H]; [discriminate | rewrite H; reflexivity].
Qed.

(** X2.  Validation is idempotent: data that [validate_input] has accepted
    is accepted again and comes back unchanged. *)
Theorem validate_input_idempotent (w : World) (job_input data : value) :
  validate_input w job_input = Ok (data, VNone) ->
  validate_input w data = Ok (data, VNone).
Proof.
  intros Hvalid.
  destruct (validate_input_returns w job_input data VNone Hvalid)
    as [(_ & m & Hm & _) | (_ & workflow & images & -> & _)]; [discriminate |].
  assert (Hfields : exists v,
             validate_fields v =
               Ok (VDict [("workflow", workflow); ("images", images)], VNone)).
  { destruct job_input as [| | |s| |]; cbn [validate_input] in Hvalid;
      try (eexists; exact Hvalid); try discriminate.
    destruct (json_loads w s) as [parsed|e]; [eexists; exact Hvalid |].
    destruct (is_class JSONDecodeError e); discriminate. }
  destruct Hfields as (v & Hv).
  destruct (validate_fields_accepted v workflow images Hv) as (Hwf & Himgs).
  cbn [validate_input]. apply validate_fields_again; assumption.
Qed.

Lemma validate_input_idempotent_witness :
  validate_input Demo.idle
    (VDict [("workflow", Demo.workflow);
            ("images", VList [Demo.image "a.png" "YWJj"])]) =
  Ok (VDict [("workflow", Demo.workflow);
             ("images", VList [Demo.image "a.png" "YWJj"])], VNone).
Proof.
  apply (validate_input_idempotent Demo.idle
           (VDict [("images", VList [Demo.image "a.png" "YWJj"]);
                   ("workflow", Demo.workflow); ("seed", VInt 7)])).
  reflexivity.
Defined.

Lemma all_name_and_image_stops (passing : list (list (string * value)))
      (bad : list (string * value)) (rest : list value) :
  forallb has_name_and_image passing = true ->
  has_name_and_image bad = false ->
  all_name_and_image (map VDict passing ++ VDict bad :: rest) = Ok false.
Proof.
  unfold has_name_and_image. intros Hpass Hbad.
  induction passing as [|kvs more IH].
  - cbn [map app all_name_and_image Py.contains bindR].
    destruct (Py.dict_has "name" bad); cbn [bindR]; [| reflexivity].
    cbn in Hbad. rewrite Hbad. reflexivity.
  - cbn in Hpass. apply andb_prop in Hpass. destruct Hpass as (Hkvs & Hmore).
    apply andb_prop in Hkvs. destruct Hkvs as (Hname & Himage).
    cbn [map app all_name_and_image Py.contains bindR].
    rewrite Hname. cbn [bindR]. rewrite Himage. apply IH, Hmore.
Qed.

(** X3.  The scan of the images stops at the first mapping that lacks [name]
    or [image]: the input is rejected with the message about the shape of
    [images], and the members after that mapping are not looked at, so a
    number among them raises nothing. *)
Theorem validate_input_stops_at_first_incomplete_image
        (w : World) (kvs : list (string * value)) (workflow : value)
        (passing : list (list (string * value))) (bad : list (string * value))
        (rest : list value) :
  Py.dict_lookup "workflow" kvs = Some workflow ->
  workflow <> VNone ->
  Py.dict_lookup "images" kvs = Some (VList (map VDict passing ++ VDict bad :: rest)) ->
  forallb has_name_and_image passing = true ->
  has_name_and_image bad = false ->
  validate_input w (VDict kvs) =
  Ok (VNone, VStr "'images' must be a list of objects with 'name' and 'image' keys").
Proof.
  intros Hw Hne Himages Hpass Hbad.
  cbn. unfold validate_fields, Py.get, bindR. rewrite Hw, Himages.
  unfold images_malformed, bindR.
  rewrite (all_name_and_image_stops passing bad rest Hpass Hbad).
  destruct workflow; try contradiction; reflexivity.
Qed.

Lemma validate_input_stops_at_first_incomplete_image_witness :
  validate_input Demo.idle
    (VDict [("workflow", Demo.workflow);
            ("images", VList [Demo.image "a.png" "YWJj";
                              VDict [("name", VStr "b.png")];
                              VInt 5])]) =
  Ok (VNone, VStr "'images' must be a list of objects with 'name' and 'image' keys").
Proof.
  assert (Hne : Demo.workflow <> VNone) by discriminate.
  apply (validate_input_stops_at_first_incomplete_image Demo.idle
           [("workflow", Demo.workflow);
            ("images", VList [Demo.image "a.png" "YWJj";
                              VDict [("name", VStr "b.png")];
                              VInt 5])]
           Demo.workflow
           [[("name", VStr "a.png"); ("image", VStr "YWJj")]]
           [("name", VStr "b.png")] [VInt 5] eq_refl Hne);
    reflexivity.
Defined.

(** ** Availability probe *)

Lemma check_server_loop_events (w : World) (url : string) (delay : Z) (n : nat) :
  forall tr r tr',
    check_server_loop w url delay n tr = (r, tr') ->
    exists new,
      tr' = (new ++ tr)%list /\
      Forall (fun e => e = EvRequestsGet url \/ e = EvSleep delay) new /\
      (count is_requests_get new <= n)%nat /\
      (count is_sleep new <= count is_requests_get new)%nat.
Proof.
  induction n as [|n IH]; intros tr r tr' Hrun.
  - cbn in Hrun. injection Hrun as <- <-. exists [].
    split; [reflexivity |]. split; [constructor |]. cbn. lia.
  - assert (Hone :
              exists new,
                EvRequestsGet url :: tr = (new ++ tr)%list /\
                Forall (fun e => e = EvRequestsGet url \/ e = EvSleep delay) new /\
                (count is_requests_get new <= S n)%nat /\
                (count is_sleep new <= count is_requests_get new)%nat).
    { exists [EvRequestsGet url]. split; [reflexivity |].
      split; [constructor; [left; reflexivity | constructor] |]. cbn. lia. }
    assert (Hnext :
              bind (sleep delay) (fun _ => check_server_loop w url delay n)
                (EvRequestsGet url :: tr) = (r, tr') ->
              exists new,
                tr' = (new ++ tr)%list /\
                Forall (fun e => e = EvRequestsGet url \/ e = EvSleep delay) new /\
                (count is_requests_get new <= S n)%nat /\
                (count is_sleep new <= count is_requests_get new)%nat).
    { unfold bind.
      destruct (sleep_cases delay (EvRequestsGet url :: tr)) as [-> | (e & ->)].
      - intros Hloop. apply IH in Hloop.
        destruct Hloop as (new & -> & Hall & Hgets & Hsleeps).
        exists (new ++ [EvSleep delay; EvRequestsGet url])%list.
        rewrite <- app_assoc. split; [reflexivity |].
        split.
        + apply Forall_app. split; [exact Hall |].
          constructor; [right; reflexivity |].
          constructor; [left; reflexivity | constructor].
        + unfold count in *. rewrite !filter_app, !length_app. cbn. lia.
      - intros [= <- <-]. exact Hone. }
    cbn [check_server_loop] in Hrun. unfold bind at 1 in Hrun.
    unfold try_except, bind at 1 in Hrun. unfold http_get in Hrun.
    destruct (requests_get w (count is_requests_get tr) url) as [code|e].
    + unfold ret at 1 in Hrun. destruct (code =? 200).
      * injection Hrun as <- <-. exact Hone.
      * apply Hnext, Hrun.
    + destruct (is_class RequestException e).
      * unfold ret at 1 in Hrun. apply Hnext, Hrun.
      * injection Hrun as <- <-. exact Hone.
Qed.

(** X4.  Whatever the server answers and however the probe ends,
    [check_server] only ever requests [url] and sleeps [delay]: it makes at
    most [retries] requests (none when [retries] is zero or negative) and
    never sleeps more often than it requests. *)
Theorem check_server_stays_within_budget
        (w : World) (url : string) (retries delay : Z) (tr tr' : trace)
        (r : result bool) :
  check_server w url retries delay tr = (r, tr') ->
  exists new,
    tr' = (new ++ tr)%list /\
    Forall (fun e => e = EvRequestsGet url \/ e = EvSleep delay) new /\
    (count is_requests_get new <= Z.to_nat retries)%nat /\
    (count is_sleep new <= count is_requests_get new)%nat.
Proof. apply check_server_loop_events. Qed.

Lemma check_server_stays_within_budget_witness :
  exists new,
    snd (check_server Demo.deaf "http://127.0.0.1:8188" 4 50 []) = (new ++ [])%list /\
    Forall (fun e => e = EvRequestsGet "http://127.0.0.1:8188" \/ e = EvSleep 50) new /\
    (count is_requests_get new <= 4)%nat /\
    (count is_sleep new <= count is_requests_get new)%nat.
Proof.
  apply (check_server_stays_within_budget Demo.deaf "http://127.0.0.1:8188" 4 50 []
           (snd (check_server Demo.deaf "http://127.0.0.1:8188" 4 50 []))
           (fst (check_server Demo.deaf "http://127.0.0.1:8188" 4 50 []))).
  reflexivity.
Defined.

(** X5.  [check_server] absorbs transport exceptions only.  Let the delay be
    a length that [time.sleep] accepts.  If the attempts
    before the [k]-th one ([k] within the budget) are not ready and the
    [k]-th GET raises a fault of another class, that fault leaves
    [check_server] right after that GET, with no further attempt. *)
Theorem check_server_lets_other_faults_escape
        (w : World) (url : string) (retries delay : Z) (tr : trace)
        (k : nat) (e : exn) :
  sleepable delay ->
  (k < Z.to_nat retries)%nat ->
  (forall i, (i < k)%nat -> attempt_down w url (probes tr + i) = true) ->
  requests_get w (probes tr + k) url = Raise e ->
  is_class RequestException e = false ->
  exists tr',
    check_server w url retries delay tr = (Raise e, EvRequestsGet url :: tr') /\
    probes (EvRequestsGet url :: tr') = (probes tr + k + 1)%nat.
Proof.
  intros Hdelay. unfold check_server. generalize (Z.to_nat retries) as n.
  revert tr. induction k as [|k IH]; intros tr n Hk Hbefore Hraise Hclass.
  - destruct n as [|n]; [lia |]. rewrite Nat.add_0_r in Hraise.
    exists tr. split.
    + cbn [check_server_loop]. unfold bind at 1. unfold try_except, bind at 1.
      unfold http_get. fold (probes tr). rewrite Hraise, Hclass. reflexivity.
    + unfold probes. rewrite count_cons. cbn. lia.
  - destruct n as [|n]; [lia |].
    rewrite (check_server_loop_down w url delay Hdelay).
    + destruct (IH (EvSleep delay :: EvRequestsGet url :: tr) n) as (tr' & Hrun & Hcount).
      * lia.
      * intros i Hi. rewrite probes_turn.
        replace (S (probes tr) + i)%nat with (probes tr + S i)%nat by lia.
        apply Hbefore. lia.
      * rewrite probes_turn.
        replace (S (probes tr) + k)%nat with (probes tr + S k)%nat by lia.
        exact Hraise.
      * exact Hclass.
      * exists tr'. split; [exact Hrun |]. rewrite Hcount, probes_turn. lia.
    + replace (probes tr) with (probes tr + 0)%nat by lia. apply Hbefore. lia.
Qed.

Lemma check_server_lets_other_faults_escape_witness :
  check_server Scenario.broken_probe "http://127.0.0.1:8188" 500 50 [] =
  (Raise (Exn RuntimeError "interpreter shutdown"),
   [EvRequestsGet "http://127.0.0.1:8188"]).
Proof.
  assert (Hdelay : sleepable 50) by (unfold sleepable, SLEEP_MAX_MS; lia).
  assert (Hk : (0 < Z.to_nat 500)%nat) by lia.
  destruct (check_server_lets_other_faults_escape
              Scenario.broken_probe "http://127.0.0.1:8188" 500 50 [] 0
              (Exn RuntimeError "interpreter shutdown") Hdelay Hk)
    as (tr' & Hrun & _).
  - intros i Hi. lia.
  - reflexivity.
  - reflexivity.
  - rewrite Hrun. cbn [check_server Z.to_nat] in Hrun.
    vm_compute in Hrun. injection Hrun as <-. reflexivity.
Defined.



(** ** Completion polling *)

Lemma poll_loop_events (w : World) (cfg : Config) (prompt_id : value) (n : nat) :
  forall tr r tr',
    poll_loop w cfg prompt_id n tr = (r, tr') ->
    exists new,
      tr' = (new ++ tr)%list /\
      Forall (fun e => e = EvUrlopenGet (history_url w prompt_id) \/
                       e = EvSleep (COMFY_POLLING_INTERVAL_MS cfg)) new /\
      (count is_urlopen_get new <= n)%nat /\
      (count is_sleep new <= count is_urlopen_get new)%nat.
Proof.
  induction n as [|n IH]; intros tr r tr' Hrun.
  - cbn in Hrun. injection Hrun as <- <-. exists [].
    split; [reflexivity |]. split; [constructor |]. cbn. lia.
  - assert (Hone :
              exists new,
                EvUrlopenGet (history_url w prompt_id) :: tr = (new ++ tr)%list /\
                Forall (fun e => e = EvUrlopenGet (history_url w prompt_id) \/
                                 e = EvSleep (COMFY_POLLING_INTERVAL_MS cfg)) new /\
                (count is_urlopen_get new <= S n)%nat /\
                (count is_sleep new <= count is_urlopen_get new)%nat).
    { exists [EvUrlopenGet (history_url w prompt_id)]. split; [reflexivity |].
      split; [constructor; [left; reflexivity | constructor] |]. cbn. lia. }
    cbn [poll_loop] in Hrun. unfold bind at 1 in Hrun. unfold get_history in Hrun.
    destruct (urlopen_get w (count is_urlopen_get tr) (history_url w prompt_id))
      as [history|e]; [| injection Hrun as <- <-; exact Hone].
    unfold bind at 1 in Hrun. unfold lift in Hrun.
    destruct (history_ready prompt_id history) as [[|]|e];
      try (injection Hrun as <- <-; exact Hone).
    unfold bind in Hrun.
    destruct (sleep_cases (COMFY_POLLING_INTERVAL_MS cfg)
                (EvUrlopenGet (history_url w prompt_id) :: tr)) as [Hsleep | (e & Hsleep)];
      rewrite Hsleep in Hrun; [| injection Hrun as <- <-; exact Hone].
    apply IH in Hrun. destruct Hrun as (new & -> & Hall & Hgets & Hsleeps).
    exists (new ++ [EvSleep (COMFY_POLLING_INTERVAL_MS cfg);
                    EvUrlopenGet (history_url w prompt_id)])%list.
    rewrite <- app_assoc. split; [reflexivity |]. split.
    + apply Forall_app. split; [exact Hall |].
      constructor; [right; reflexivity |].
      constructor; [left; reflexivity | constructor].
    + unfold count in *. rewrite !filter_app, !length_app. cbn. lia.
Qed.

(** X7.  Whatever the backend answers, the polling stage never raises and
    stays within its budget: it only fetches the history of [prompt_id] and
    sleeps the configured interval, it makes at most
    [COMFY_POLLING_MAX_RETRIES] fetches (none when that is zero or negative)
    and it never sleeps more often than it fetches. *)
Theorem wait_for_outputs_stays_within_budget
        (w : World) (cfg : Config) (prompt_id : value) (tr : trace) :
  exists s new,
    wait_for_outputs w cfg prompt_id tr = (Ok s, (new ++ tr)%list) /\
    Forall (fun e => e = EvUrlopenGet (history_url w prompt_id) \/
                     e = EvSleep (COMFY_POLLING_INTERVAL_MS cfg)) new /\
    (count is_urlopen_get new <= Z.to_nat (COMFY_POLLING_MAX_RETRIES cfg))%nat /\
    (count is_sleep new <= count is_urlopen_get new)%nat.
Proof.
  unfold wait_for_outputs.
  destruct (poll_loop w cfg prompt_id (Z.to_nat (COMFY_POLLING_MAX_RETRIES cfg)) tr)
    as [r tr'] eqn:Hrun.
  destruct (poll_loop_events w cfg prompt_id _ tr r tr' Hrun) as (new & -> & Hall & Hb).
  destruct r as [[history|]|e]; eexists _, new; (split; [reflexivity |]);
    split; assumption.
Qed.

(** X8.  A fault while polling ends the polling at once.  Let the polling
    interval be a length that [time.sleep] accepts: if the fetches
    before the [k]-th one ([k] within the budget) are not ready and the
    [k]-th fetch fails, or brings back a history on which the readiness test
    raises, the stage makes no further fetch and hands the handler
    [{"error": "Error waiting for image generation: <the fault's text>"}]. *)
Theorem polling_fault_ends_the_polling
        (w : World) (cfg : Config) (prompt_id : value) (tr : trace)
        (k : nat) (e : exn) :
  sleepable (COMFY_POLLING_INTERVAL_MS cfg) ->
  (k < Z.to_nat (COMFY_POLLING_MAX_RETRIES cfg))%nat ->
  (forall i, (i < k)%nat -> not_ready_at w prompt_id (fetches tr + i)) ->
  faults_at w prompt_id (fetches tr + k) e ->
  exists tr',
    wait_for_outputs w cfg prompt_id tr =
      (Ok (Returns (error_result
                      ("Error waiting for image generation: " ++ exn_str e))), tr') /\
    fetches tr' = (fetches tr + k + 1)%nat.
Proof.
  intros Hinterval. unfold wait_for_outputs.
  generalize (Z.to_nat (COMFY_POLLING_MAX_RETRIES cfg)) as n.
  revert tr. induction k as [|k IH]; intros tr n Hk Hbefore Hfault.
  - destruct n as [|n]; [lia |]. rewrite Nat.add_0_r in Hfault.
    exists (EvUrlopenGet (history_url w prompt_id) :: tr).
    split; [| unfold fetches; rewrite count_cons; cbn; lia].
    cbn [poll_loop]. unfold bind at 1. unfold get_history. fold (fetches tr).
    destruct Hfault as [Hget | (history & Hget & Hready)]; rewrite Hget.
    + reflexivity.
    + unfold bind at 1. unfold lift. rewrite Hready. reflexivity.
  - destruct n as [|n]; [lia |].
    rewrite (poll_loop_step_not_ready w cfg prompt_id Hinterval).
    + destruct (IH (EvSleep (COMFY_POLLING_INTERVAL_MS cfg)
                      :: EvUrlopenGet (history_url w prompt_id) :: tr) n)
        as (tr' & Hrun & Hcount).
      * lia.
      * intros i Hi. rewrite fetches_turn.
        replace (S (fetches tr) + i)%nat with (fetches tr + S i)%nat by lia.
        apply Hbefore. lia.
      * rewrite fetches_turn.
        replace (S (fetches tr) + k)%nat with (fetches tr + S k)%nat by lia.
        exact Hfault.
      * exists tr'. split; [exact Hrun |]. rewrite Hcount, fetches_turn. lia.
    + replace (fetches tr) with (fetches tr + 0)%nat by lia. apply Hbefore. lia.
Qed.

Lemma polling_fault_ends_the_polling_witness :
  exists tr',
    wait_for_outputs Scenario.flaky Demo.config (VStr "p1") [] =
      (Ok (Returns (error_result
                      "Error waiting for image generation: <urlopen error timed out>")),
       tr') /\
    fetches tr' = 2%nat.
Proof.
  assert (Hinterval : sleepable (COMFY_POLLING_INTERVAL_MS Demo.config))
    by (unfold sleepable, SLEEP_MAX_MS; cbn; lia).
  assert (Hk : (1 < Z.to_nat (COMFY_POLLING_MAX_RETRIES Demo.config))%nat) by (cbn; lia).
  apply (polling_fault_ends_the_polling Scenario.flaky Demo.config (VStr "p1") [] 1
           (Exn URLError "<urlopen error timed out>") Hinterval Hk).
  - intros i Hi. assert (i = 0%nat) as -> by lia.
    exists (VDict []). split; reflexivity.
  - left. reflexivity.
Defined.



(** ** Image upload *)

(** The loop over a list that starts with images that all get an answer:
    it reaches the rest of the list with one line and one POST per image of
    the prefix, and with nothing but POSTs added to the trace. *)
Lemma upload_loop_prefix (w : World) (prefix : list value) :
  forall rest responses upload_errors tr answers,
    upload_answers w (posts tr) prefix = Some answers ->
    exists new,
      upload_loop w (prefix ++ rest)%list responses upload_errors tr =
        upload_loop w rest
          (responses ++ map (success_line w) (filter accepted answers))%list
          (upload_errors ++ map (error_line w) (filter rejected answers))%list
          (new ++ tr)%list /\
      Forall (fun e => is_requests_post e = true) new /\
      List.length new = List.length prefix.
Proof.
  induction prefix as [|image more IH];
    intros rest responses upload_errors tr answers Hans.
  - cbn in Hans. injection Hans as <-. exists []. cbn. rewrite !app_nil_r.
    repeat split. constructor.
  - cbn [upload_answers] in Hans. cbn [app upload_loop].
    unfold bind at 1. unfold lift at 1.
    destruct (Py.item image "name") as [name|]; [| discriminate].
    unfold bind at 1. unfold lift at 1.
    destruct (Py.item image "image") as [image_data|]; [| discriminate].
    unfold bind at 1. unfold lift at 1.
    destruct (b64decode w image_data) as [blob|]; [| discriminate].
    unfold bind at 1. unfold http_post at 1. fold (posts tr).
    destruct (requests_post w (posts tr) upload_url name blob) as [response|];
      [| discriminate].
    destruct (upload_answers w (S (posts tr)) more) as [others|] eqn:Hothers;
      [| discriminate].
    cbn in Hans. injection Hans as <-.
    rewrite <- (posts_after_post upload_url name blob tr) in Hothers.
    assert (Hfilter :
              filter accepted ((name, response) :: others) =
                (if fst response =? 200 then (name, response) :: filter accepted others
                 else filter accepted others) /\
              filter rejected ((name, response) :: others) =
                (if fst response =? 200 then filter rejected others
                 else (name, response) :: filter rejected others)).
    { destruct (fst response =? 200) eqn:Hcode;
        cbn [filter]; unfold rejected, accepted; cbn [fst snd]; rewrite Hcode;
        split; reflexivity. }
    destruct Hfilter as (-> & ->).
    destruct (fst response =? 200); cbn [negb].
    + destruct (IH rest
                  (List.app responses [("Successfully uploaded " ++ str w name)%string])
                  upload_errors _ others Hothers) as (new & Hrun & Hall & Hlen).
      exists (new ++ [EvRequestsPost upload_url name blob])%list.
      rewrite Hrun. cbn [map]. rewrite <- !app_assoc. cbn [app].
      split; [reflexivity |]. split.
      * apply Forall_app. split; [exact Hall |]. repeat constructor.
      * rewrite length_app. cbn. lia.
    + destruct (IH rest responses
                  (List.app upload_errors
                     [("Error uploading " ++ str w name ++ ": " ++ snd response)%string])
                  _ others Hothers) as (new & Hrun & Hall & Hlen).
      exists (new ++ [EvRequestsPost upload_url name blob])%list.
      rewrite Hrun. cbn [map]. rewrite <- !app_assoc. cbn [app].
      split; [reflexivity |]. split.
      * apply Forall_app. split; [exact Hall |]. repeat constructor.
      * rewrite length_app. cbn. lia.
Qed.

(** X10.  The upload is fail-fast and leaves the batch half done: if the
    images before some image are uploaded with an answer each and that
    image's payload does not decode, [upload_images] raises the decoder's
    fault; by then the images before it have been POSTed, one request each,
    and no request is made for it or for the images after it. *)
Theorem upload_images_stops_at_undecodable_payload
        (w : World) (prefix rest : list value) (image name image_data : value)
        (answers : list answer) (e : exn) (tr : trace) :
  upload_answers w (posts tr) prefix = Some answers ->
  Py.item image "name" = Ok name ->
  Py.item image "image" = Ok image_data ->
  b64decode w image_data = Raise e ->
  exists new,
    upload_images w (VList (prefix ++ image :: rest)%list) tr = (Raise e, (new ++ tr)%list) /\
    Forall (fun ev => is_requests_post ev = true) new /\
    List.length new = List.length prefix.
Proof.
  intros Hans Hname Hdata Hdecode.
  destruct (upload_loop_prefix w prefix (image :: rest) [] [] tr answers Hans)
    as (new & Hrun & Hall & Hlen).
  exists new. split; [| split; assumption].
  unfold upload_images.
  assert (Htruthy : Py.truthy (VList (prefix ++ image :: rest)%list) = true)
    by (destruct prefix; reflexivity).
  rewrite Htruthy. cbn [negb Py.iter].
  unfold bind at 1. unfold lift at 1. unfold bind at 1. rewrite Hrun.
  cbn [upload_loop]. unfold bind at 1. unfold lift at 1. rewrite Hname.
  unfold bind at 1. unfold lift at 1. rewrite Hdata.
  unfold bind at 1. unfold lift at 1. rewrite Hdecode. reflexivity.
Qed.

Lemma upload_images_stops_at_undecodable_payload_witness :
  upload_images Demo.idle
    (VList [Demo.image "a.png" "YWJj"; Demo.image "b.png" "YQ";
            Demo.image "c.png" "YWJj"]) [] =
  (Raise (Exn BinasciiError "Incorrect padding"),
   [EvRequestsPost upload_url (VStr "a.png") [97; 98; 99]]).
Proof.
  destruct (upload_images_stops_at_undecodable_payload Demo.idle
              [Demo.image "a.png" "YWJj"] [Demo.image "c.png" "YWJj"]
              (Demo.image "b.png" "YQ") (VStr "b.png") (VStr "YQ")
              [(VStr "a.png", (200, "{}"))]
              (Exn BinasciiError "Incorrect padding") []
              eq_refl eq_refl eq_refl eq_refl)
    as (new & Hrun & _ & _).
  rewrite app_nil_r in Hrun.
  assert (Hnew : new = [EvRequestsPost upload_url (VStr "a.png") [97; 98; 99]])
    by (vm_compute in Hrun; injection Hrun as <-; reflexivity).
  rewrite Hnew in Hrun. exact Hrun.
Defined.

(** X11.  An upload answered with a status other than 200 ends the job
    before the workflow is submitted: when every image of a well-formed list
    gets an answer and one of them is not 200, the stages after the
    availability check return the upload outcome having made one POST per
    image and nothing else, so no workflow is queued and no history is
    fetched. *)
Theorem upload_error_skips_submission
        (w : World) (cfg : Config) (job workflow : value) (images : list value)
        (answers : list answer) (tr : trace) :
  upload_answers w (posts tr) images = Some answers ->
  forallb accepted answers = false ->
  exists new,
    after_check w cfg job workflow (VList images) tr =
      (Ok (upload_outcome "error" "Some images failed to upload"
             (map (error_line w) (filter rejected answers))), (new ++ tr)%list) /\
    Forall (fun e => is_requests_post e = true) new /\
    List.length new = List.length images.
Proof.
  intros Hans Hsome.
  destruct (upload_loop_prefix w images [] [] [] tr answers Hans)
    as (new & Hrun & Hall & Hlen).
  rewrite app_nil_r in Hrun. cbn [upload_loop app] in Hrun.
  exists new. split; [| split; assumption].
  assert (Hne : images <> []).
  { intros ->. cbn in Hans. injection Hans as <-. discriminate. }
  unfold after_check. unfold bind at 1. unfold upload_images.
  assert (Htruthy : Py.truthy (VList images) = true)
    by (destruct images; [contradiction | reflexivity]).
  rewrite Htruthy. cbn [negb Py.iter].
  unfold bind at 1. unfold lift at 1. unfold bind at 1. rewrite Hrun.
  unfold ret at 1. cbn [fst snd].
  pose proof (some_rejected answers Hsome) as Hrej.
  destruct (filter rejected answers) as [|a failed]; [contradiction |].
  cbn [map]. reflexivity.
Qed.

Lemma upload_error_skips_submission_witness :
  after_check Demo.picky Demo.config
    (Demo.job VNone) Demo.workflow
    (VList [Demo.image "a.png" "YWJj"; Demo.image "b.png" "YQ=="]) [] =
  (Ok (upload_outcome "error" "Some images failed to upload"
         ["Error uploading b.png: disk full"]),
   [EvRequestsPost upload_url (VStr "b.png") [97];
    EvRequestsPost upload_url (VStr "a.png") [97; 98; 99]]).
Proof.
  destruct (upload_error_skips_submission Demo.picky Demo.config
              (Demo.job VNone) Demo.workflow
              [Demo.image "a.png" "YWJj"; Demo.image "b.png" "YQ=="]
              [(VStr "a.png", (200, "{}")); (VStr "b.png", (500, "disk full"))]
              [] eq_refl eq_refl)
    as (new & Hrun & _ & _).
  rewrite app_nil_r in Hrun.
  assert (Hnew : new = [EvRequestsPost upload_url (VStr "b.png") [97];
                        EvRequestsPost upload_url (VStr "a.png") [97; 98; 99]])
    by (vm_compute in Hrun; injection Hrun as <-; reflexivity).
  rewrite Hnew in Hrun. exact Hrun.
Defined.

(** ** Workflow submission *)

(** X12.  The submission stage never raises and makes exactly one request,
    a POST of [{"prompt": workflow}] to [/prompt].  When the answer is a
    mapping, the stage goes on with its [prompt_id], and without one it ends
    the job with [{"error": "Error queuing workflow: 'prompt_id'"}]; when the
    request fails, it ends the job with the text of the fault. *)
Theorem submit_posts_once_and_never_raises
        (w : World) (workflow : value) (tr : trace) :
  exists s,
    submit w workflow tr =
      (Ok s, EvUrlopenPost prompt_url (VDict [("prompt", workflow)]) :: tr) /\
    (forall answer,
       urlopen_post w prompt_url (VDict [("prompt", workflow)]) = Ok (VDict answer) ->
       s = match Py.dict_lookup "prompt_id" answer with
           | Some prompt_id => Goes_on prompt_id
           | None => Returns (error_result "Error queuing workflow: 'prompt_id'")
           end) /\
    (forall e,
       urlopen_post w prompt_url (VDict [("prompt", workflow)]) = Raise e ->
       s = Returns (error_result ("Error queuing workflow: " ++ exn_str e))).
Proof.
  unfold submit, try_except, any_exception, bind, queue_workflow, lift, ret.
  fold prompt_url.
  destruct (urlopen_post w prompt_url (VDict [("prompt", workflow)])) as [queued|e].
  - destruct (Py.item queued "prompt_id") as [prompt_id|e] eqn:Hitem.
    + eexists. split; [reflexivity |]. split; [| discriminate].
      intros answer [= ->]. unfold Py.item, Py.subscript in Hitem.
      destruct (Py.dict_lookup "prompt_id" answer); [| discriminate].
      injection Hitem as ->. reflexivity.
    + eexists. split; [reflexivity |]. split; [| discriminate].
      intros answer [= ->]. unfold Py.item, Py.subscript in Hitem.
      destruct (Py.dict_lookup "prompt_id" answer); [discriminate |].
      injection Hitem as <-. reflexivity.
  - eexists. split; [reflexivity |]. split; [discriminate |].
    intros e' [= <-]. reflexivity.
Qed.

Lemma submit_posts_once_and_never_raises_witness :
  submit Scenario.unqueued Demo.workflow [] =
  (Ok (Returns (error_result "Error queuing workflow: 'prompt_id'")),
   [EvUrlopenPost prompt_url (VDict [("prompt", Demo.workflow)])]).
Proof.
  destruct (submit_posts_once_and_never_raises Scenario.unqueued Demo.workflow [])
    as (s & Hrun & Hanswer & _).
  rewrite Hrun. rewrite (Hanswer [("error", VStr "invalid prompt")] eq_refl).
  reflexivity.
Defined.

(** ** Output resolution *)

(** X13.  When the last entry reports a full path that is on disk,
    [process_output_files] hands that path to the bucket upload under the
    job's id and returns [{"status": "success", "message": <url>}] with the
    URL the upload gave, provided the directory of the path can be listed. *)
Theorem resolver_uploads_reported_path
        (w : World) (cfg : Config) (outputs job_id : value) (tr : trace)
        (output_file full url : string) :
  scan_outputs outputs = Ok (VStr output_file, VStr full) ->
  full <> "" ->
  path_exists w full = true ->
  (path_exists w (OsPath.dirname full) = true ->
   exists names, listdir w (OsPath.dirname full) = Ok names) ->
  upload_image w job_id full = Ok url ->
  exists tr',
    process_output_files w cfg outputs job_id tr =
      (Ok (VDict [("status", VStr "success"); ("message", VStr url)]),
       EvUploadImage job_id full :: tr').
Proof.
  intros Hscan Hne Hfull Hdir Hurl.
  unfold process_output_files. unfold bind at 1. unfold lift at 1. rewrite Hscan.
  cbn [fst snd]. unfold bind at 1.
  rewrite (choose_path_reported w _ full tr Hne Hfull).
  apply (deliver_found w full job_id _ url Hfull Hdir Hurl).
Qed.

Lemma resolver_uploads_reported_path_witness :
  exists tr',
    process_output_files Scenario.finished Demo.config Scenario.outputs (VStr "job-1") [] =
      (Ok (VDict [("status", VStr "success");
                  ("message", VStr "https://bucket.example//data/clips/b.gif")]),
       EvUploadImage (VStr "job-1") "/data/clips/b.gif" :: tr').
Proof.
  apply (resolver_uploads_reported_path Scenario.finished Demo.config
           Scenario.outputs (VStr "job-1") [] "clips/b.gif" "/data/clips/b.gif").
  - reflexivity.
  - discriminate.
  - reflexivity.
  - intros _. exists []. reflexivity.
  - reflexivity.
Defined.

(** X14.  When the last entry reports no full path, or one that is not on
    disk, and the file is under the output root, [process_output_files]
    uploads the constructed path [COMFY_OUTPUT_PATH/subfolder/filename]. *)
Theorem resolver_uploads_constructed_path
        (w : World) (cfg : Config) (outputs job_id full_path : value) (tr : trace)
        (output_file url : string) :
  let constructed := COMFY_OUTPUT_PATH cfg ++ "/" ++ output_file in
  scan_outputs outputs = Ok (VStr output_file, full_path) ->
  (full_path = VNone \/
   exists full, full_path = VStr full /\ path_exists w full = false) ->
  path_exists w constructed = true ->
  (path_exists w (OsPath.dirname constructed) = true ->
   exists names, listdir w (OsPath.dirname constructed) = Ok names) ->
  upload_image w job_id constructed = Ok url ->
  exists tr',
    process_output_files w cfg outputs job_id tr =
      (Ok (VDict [("status", VStr "success"); ("message", VStr url)]),
       EvUploadImage job_id constructed :: tr').
Proof.
  intros constructed Hscan Hfull Hbuilt Hdir Hurl.
  unfold process_output_files. unfold bind at 1. unfold lift at 1. rewrite Hscan.
  cbn [fst snd str]. fold constructed. unfold bind at 1.
  assert (Hchoose : exists tr1,
             choose_path w constructed full_path tr = (Ok (VStr constructed), tr1)).
  { destruct Hfull as [-> | (full & -> & Hmissing)].
    - unfold choose_path, bind. cbn [Py.truthy ret]. unfold os_path_exists.
      rewrite Hbuilt. cbn. eexists; reflexivity.
    - apply (choose_path_constructed w constructed full tr Hmissing Hbuilt). }
  destruct Hchoose as (tr1 & ->).
  apply (deliver_found w constructed job_id tr1 url Hbuilt Hdir Hurl).
Qed.

Lemma resolver_uploads_constructed_path_witness :
  exists tr',
    process_output_files Scenario.relocated Demo.config Scenario.outputs (VStr "job-1") [] =
      (Ok (VDict [("status", VStr "success");
                  ("message", VStr "https://bucket.example//comfyui/output/clips/b.gif")]),
       EvUploadImage (VStr "job-1") "/comfyui/output/clips/b.gif" :: tr').
Proof.
  apply (resolver_uploads_constructed_path Scenario.relocated Demo.config
           Scenario.outputs (VStr "job-1") (VStr "/data/clips/b.gif") [] "clips/b.gif").
  - reflexivity.
  - right. exists "/data/clips/b.gif". split; reflexivity.
  - reflexivity.
  - intros _. exists []. reflexivity.
  - reflexivity.
Defined.

Lemma no_bucket_uploads (l : trace) :
  Forall (fun e => is_bucket_upload e = false) l -> count is_bucket_upload l = 0%nat.
Proof.
  unfold count. induction 1 as [|e l He _ IH]; [reflexivity |].
  cbn. rewrite He. exact IH.
Qed.

Lemma choose_path_events (w : World) (constructed : string) (full_path : value)
      (tr tr' : trace) (r : result value) :
  choose_path w constructed full_path tr = (r, tr') ->
  exists new,
    tr' = (new ++ tr)%list /\ Forall (fun e => is_bucket_upload e = false) new.
Proof.
  unfold choose_path, bind, os_path_exists, ret.
  destruct (Py.truthy full_path).
  - destruct full_path as [|b|fd|s|l|kvs];
      try (intros [= <- <-]; exists []; split; [reflexivity | constructor]).
    + destruct (fd_exists w (if b then 1 else 0)).
      * intros [= <- <-]. exists [EvPathExists (VBool b)].
        split; [reflexivity | repeat constructor].
      * destruct (path_exists w constructed); intros [= <- <-];
          exists [EvPathExists (VStr constructed); EvPathExists (VBool b)];
          (split; [reflexivity | repeat constructor]).
    + destruct (fd <? - 2147483648);
        [intros [= <- <-]; exists []; split; [reflexivity | constructor] |].
      destruct (2147483647 <? fd);
        [intros [= <- <-]; exists []; split; [reflexivity | constructor] |].
      destruct (fd_exists w fd).
      * intros [= <- <-]. exists [EvPathExists (VInt fd)].
        split; [reflexivity | repeat constructor].
      * destruct (path_exists w constructed); intros [= <- <-];
          exists [EvPathExists (VStr constructed); EvPathExists (VInt fd)];
          (split; [reflexivity | repeat constructor]).
    + destruct (path_exists w s).
      * intros [= <- <-]. exists [EvPathExists (VStr s)].
        split; [reflexivity | repeat constructor].
      * destruct (path_exists w constructed); intros [= <- <-];
          exists [EvPathExists (VStr constructed); EvPathExists (VStr s)];
          (split; [reflexivity | repeat constructor]).
  - destruct (path_exists w constructed); intros [= <- <-];
      exists [EvPathExists (VStr constructed)];
      (split; [reflexivity | repeat constructor]).
Qed.

Ltac bucket_uploads_in Hin :=
  cbn in Hin;
  repeat (destruct Hin as [Hin | Hin]; [try discriminate Hin |]);
  try contradiction.

Lemma deliver_events (w : World) (local_file_path job_id : value)
      (tr tr' : trace) (r : result value) :
  deliver w local_file_path job_id tr = (r, tr') ->
  exists new,
    tr' = (new ++ tr)%list /\
    (count is_bucket_upload new <= 1)%nat /\
    (forall j p, In (EvUploadImage j p) new -> j = job_id /\ path_exists w p = true) /\
    (forall message,
       r = Ok (VDict (status_message "error" message)) ->
       count is_bucket_upload new = 0%nat).
Proof.
  unfold deliver. unfold bind at 1. unfold lift at 1.
  destruct (fspath local_file_path) as [path|e].
  - unfold bind at 1. unfold os_path_exists at 1.
    set (dir := OsPath.dirname path).
    assert (Hlast :
              forall mid,
                Forall (fun e => is_bucket_upload e = false) mid ->
                bind (os_path_exists w (VStr path))
                  (fun found : bool =>
                     if found
                     then bind (os_path_getsize path)
                            (fun _ =>
                               bind (rp_upload_upload_image w job_id path)
                                 (fun file_url =>
                                    ret (VDict (status_message "success" file_url))))
                     else ret (file_missing path))
                  (mid ++ tr)%list = (r, tr') ->
                exists new,
                  tr' = (new ++ tr)%list /\
                  (count is_bucket_upload new <= 1)%nat /\
                  (forall j p, In (EvUploadImage j p) new ->
                               j = job_id /\ path_exists w p = true) /\
                  (forall message,
                     r = Ok (VDict (status_message "error" message)) ->
                     count is_bucket_upload new = 0%nat)).
    { intros mid Hmid. unfold bind, os_path_exists, os_path_getsize,
        rp_upload_upload_image, ret.
      pose proof (no_bucket_uploads mid Hmid) as Hcount.
      assert (Hnone : forall j p, ~ In (EvUploadImage j p) mid).
      { intros j p Hin. rewrite Forall_forall in Hmid.
        apply Hmid in Hin. discriminate. }
      destruct (path_exists w path) eqn:Hfound.
      - destruct (upload_image w job_id path) as [file_url|e];
          intros [= <- <-];
          exists (EvUploadImage job_id path :: EvGetsize path
                    :: EvPathExists (VStr path) :: mid);
          (split; [reflexivity |]);
          (split; [rewrite !count_cons, Hcount; cbn; lia |]);
          (split; [| discriminate]);
          intros j p [Hin | [Hin | [Hin | Hin]]]; try discriminate;
          try (exfalso; apply (Hnone j p Hin));
          injection Hin as <- <-; (split; [reflexivity | exact Hfound]).
      - intros [= <- <-]. exists (EvPathExists (VStr path) :: mid).
        split; [reflexivity |].
        split; [rewrite count_cons, Hcount; cbn; lia |].
        split.
        + intros j p [Hin | Hin]; [discriminate | exfalso; apply (Hnone j p Hin)].
        + intros _ _. rewrite count_cons, Hcount. reflexivity. }
    destruct (path_exists w dir).
    + unfold bind at 1. unfold bind at 1. unfold os_listdir.
      destruct (listdir w dir) as [names|e].
      * unfold ret at 1.
        apply (Hlast [EvListdir dir; EvPathExists (VStr dir)]).
        repeat constructor.
      * intros [= <- <-]. exists [EvListdir dir; EvPathExists (VStr dir)].
        split; [reflexivity |]. split; [cbn; lia |]. split.
        -- intros j p Hin. bucket_uploads_in Hin.
        -- discriminate.
    + unfold bind at 1. unfold ret at 1.
      apply (Hlast [EvPathExists (VStr dir)]). repeat constructor.
  - intros [= <- <-]. exists []. split; [reflexivity |]. split; [cbn; lia |].
    split; [intros j p [] | discriminate].
Qed.

(** X15.  [process_output_files] is careful with the bucket: however it
    ends, it calls the bucket upload at most once, only under the job's id
    and only for a path that [os.path.exists] has found on disk, and when it
    returns a payload with status [error] it has uploaded nothing. *)
Theorem resolver_uploads_only_what_exists
        (w : World) (cfg : Config) (outputs job_id : value) (tr tr' : trace)
        (r : result value) :
  process_output_files w cfg outputs job_id tr = (r, tr') ->
  exists new,
    tr' = (new ++ tr)%list /\
    (count is_bucket_upload new <= 1)%nat /\
    (forall j p, In (EvUploadImage j p) new -> j = job_id /\ path_exists w p = true) /\
    (forall message,
       r = Ok (VDict (status_message "error" message)) ->
       count is_bucket_upload new = 0%nat).
Proof.
  unfold process_output_files. unfold bind at 1. unfold lift at 1.
  assert (Hnothing :
            forall r0, (r0, tr) = (r, tr') ->
            exists new,
              tr' = (new ++ tr)%list /\
              (count is_bucket_upload new <= 1)%nat /\
              (forall j p, In (EvUploadImage j p) new ->
                           j = job_id /\ path_exists w p = true) /\
              (forall message,
                 r = Ok (VDict (status_message "error" message)) ->
                 count is_bucket_upload new = 0%nat)).
  { intros r0 [= <- <-]. exists []. split; [reflexivity |]. split; [cbn; lia |].
    split; [intros j p [] | reflexivity]. }
  destruct (scan_outputs outputs) as [[output_file full_path]|e];
    [| apply Hnothing].
  cbn [fst snd].
  assert (Hresolve :
            forall constructed,
              bind (choose_path w constructed full_path)
                (fun local_file_path => deliver w local_file_path job_id) tr = (r, tr') ->
              exists new,
                tr' = (new ++ tr)%list /\
                (count is_bucket_upload new <= 1)%nat /\
                (forall j p, In (EvUploadImage j p) new ->
                             j = job_id /\ path_exists w p = true) /\
                (forall message,
                   r = Ok (VDict (status_message "error" message)) ->
                   count is_bucket_upload new = 0%nat)).
  { intros constructed. unfold bind.
    destruct (choose_path w constructed full_path tr) as [[local|e] tr1] eqn:Hchoose;
      destruct (choose_path_events w constructed full_path tr tr1 _ Hchoose)
        as (mid & -> & Hmid).
    - intros Hdeliver.
      destruct (deliver_events w local job_id _ tr' r Hdeliver)
        as (new & -> & Hcount & Hin & Herror).
      pose proof (no_bucket_uploads mid Hmid) as Hzero.
      exists (new ++ mid)%list. rewrite app_assoc. split; [reflexivity |].
      unfold count in *. rewrite filter_app, length_app, Hzero.
      split; [lia |]. split.
      + intros j p Hjp. apply in_app_or in Hjp. destruct Hjp as [Hjp | Hjp].
        * apply (Hin j p Hjp).
        * rewrite Forall_forall in Hmid. apply Hmid in Hjp. discriminate.
      + intros message Hr. rewrite (Herror message Hr). reflexivity.
    - intros [= <- <-]. exists mid. split; [reflexivity |].
      pose proof (no_bucket_uploads mid Hmid) as Hzero.
      split; [lia |]. split; [| discriminate].
      intros j p Hjp. rewrite Forall_forall in Hmid. apply Hmid in Hjp. discriminate. }
  destruct output_file; try apply Hresolve.
  apply Hnothing.
Qed.

Lemma resolver_uploads_only_what_exists_witness :
  exists new,
    snd (process_output_files Scenario.finished Demo.config Scenario.outputs
           (VStr "job-1") []) = (new ++ [])%list /\
    (count is_bucket_upload new <= 1)%nat /\
    (forall j p, In (EvUploadImage j p) new ->
                 j = VStr "job-1" /\ path_exists Scenario.finished p = true) /\
    (forall message,
       fst (process_output_files Scenario.finished Demo.config Scenario.outputs
              (VStr "job-1") []) = Ok (VDict (status_message "error" message)) ->
       count is_bucket_upload new = 0%nat).
Proof.
  apply (resolver_uploads_only_what_exists Scenario.finished Demo.config
           Scenario.outputs (VStr "job-1") []).
  reflexivity.
Defined.

Lemma count_app (p : event -> bool) (xs ys : trace) :
  count p (xs ++ ys)%list = (count p xs + count p ys)%nat.
Proof. unfold count. rewrite filter_app, length_app. reflexivity. Qed.

(** X16.  When neither the reported full path nor the constructed path is
    on disk, [process_output_files] returns status [error] with a message
    that names the reported path, not the constructed one, and uploads
    nothing, provided the directory of the reported path can be listed. *)
Theorem resolver_reports_the_reported_path_missing
        (w : World) (cfg : Config) (outputs job_id : value) (tr : trace)
        (output_file full : string) :
  scan_outputs outputs = Ok (VStr output_file, VStr full) ->
  path_exists w full = false ->
  path_exists w (COMFY_OUTPUT_PATH cfg ++ "/" ++ output_file) = false ->
  (path_exists w (OsPath.dirname full) = true ->
   exists names, listdir w (OsPath.dirname full) = Ok names) ->
  exists tr',
    process_output_files w cfg outputs job_id tr =
      (Ok (VDict [("status", VStr "error");
                  ("message",
                   VStr ("the file does not exist in the specified output folder: "
                           ++ full))]), tr') /\
    count is_bucket_upload tr' = count is_bucket_upload tr.
Proof.
  intros Hscan Hfull Hbuilt Hdir.
  unfold process_output_files. unfold bind at 1. unfold lift at 1. rewrite Hscan.
  cbn [fst snd str]. unfold bind at 1.
  destruct (choose_path_fallback w (COMFY_OUTPUT_PATH cfg ++ "/" ++ output_file)
              (VStr full) tr) as (tr1 & Hchoose).
  { right. exists full. split; [reflexivity | exact Hfull]. }
  { exact Hbuilt. }
  rewrite Hchoose.
  destruct (choose_path_events w _ _ tr tr1 _ Hchoose) as (mid & -> & Hmid).
  destruct (deliver_missing w full job_id (mid ++ tr)%list Hfull Hdir) as (tr' & Hdeliver).
  exists tr'. split; [exact Hdeliver |].
  destruct (deliver_events w (VStr full) job_id _ tr' _ Hdeliver)
    as (new & -> & _ & _ & Herror).
  rewrite !count_app, (no_bucket_uploads mid Hmid).
  rewrite (Herror _ eq_refl). reflexivity.
Qed.

Lemma resolver_reports_the_reported_path_missing_witness :
  exists tr',
    process_output_files Demo.idle Demo.config Scenario.outputs (VStr "job-1") [] =
      (Ok (VDict [("status", VStr "error");
                  ("message",
                   VStr "the file does not exist in the specified output folder: /data/clips/b.gif")]),
       tr') /\
    count is_bucket_upload tr' = 0%nat.
Proof.
  apply (resolver_reports_the_reported_path_missing Demo.idle Demo.config
           Scenario.outputs (VStr "job-1") [] "clips/b.gif" "/data/clips/b.gif").
  - reflexivity.
  - reflexivity.
  - reflexivity.
  - discriminate.
Defined.

Lemma scan_entries_app (good rest : list value) :
  forall cand,
    forallb entry_ok good = true ->
    scan_entries (good ++ rest)%list cand = scan_entries rest (overwrite good cand).
Proof.
  induction good as [|entry more IH]; intros cand Hok; [reflexivity |].
  cbn in Hok. apply andb_prop in Hok. destruct Hok as (Hentry & Hmore).
  unfold entry_ok in Hentry.
  destruct (entry_candidate entry) as [c|] eqn:Hc; [| discriminate].
  cbn [app scan_entries]. rewrite (take_entry_ok entry c Hc). cbn [bindR].
  rewrite (IH c Hmore). unfold overwrite. cbn [fold_left]. rewrite Hc. reflexivity.
Qed.

Lemma scan_nodes_app (before rest : list (string * value)) :
  forall cand,
    outputs_ok before = true ->
    scan_nodes (before ++ rest)%list cand =
    scan_nodes rest (overwrite (all_entries before) cand).
Proof.
  induction before as [|[node_id node_output] more IH]; intros cand Hok;
    [reflexivity |].
  cbn in Hok. apply andb_prop in Hok. destruct Hok as (Hnode & Hmore).
  destruct node_output as [| | | | |kvs]; try discriminate.
  cbn in Hnode. apply andb_prop in Hnode. destruct Hnode as (Himages & Hgifs).
  cbn [app scan_nodes].
  rewrite (scan_key_ok "images" kvs cand Himages). cbn [bindR].
  rewrite (scan_key_ok "gifs" kvs _ Hgifs). cbn [bindR].
  rewrite (IH _ Hmore).
  change (all_entries ((node_id, VDict kvs) :: more))
    with (node_entries (VDict kvs) ++ all_entries more)%list.
  unfold node_entries. rewrite !overwrite_app. reflexivity.
Qed.

(** X17.  One image entry without a [subfolder] makes the whole resolution
    raise [KeyError], wherever it stands: well-formed nodes before it,
    well-formed entries before it in its list and whatever comes after it do
    not help, and nothing is looked up on disk or uploaded. *)
Theorem resolver_raises_on_entry_without_subfolder
        (w : World) (cfg : Config) (before after : list (string * value))
        (node_id : string) (node : list (string * value))
        (good rest : list value) (bad : list (string * value))
        (job_id : value) (tr : trace) :
  outputs_ok before = true ->
  Py.dict_lookup "images" node = Some (VList (good ++ VDict bad :: rest)%list) ->
  forallb entry_ok good = true ->
  Py.dict_lookup "subfolder" bad = None ->
  process_output_files w cfg
    (VDict (before ++ (node_id, VDict node) :: after)%list) job_id tr =
  (Raise (Exn KeyError "'subfolder'"), tr).
Proof.
  intros Hbefore Himages Hgood Hbad.
  unfold process_output_files. unfold bind at 1. unfold lift at 1.
  unfold scan_outputs. cbn [Py.items bindR].
  rewrite (scan_nodes_app before _ _ Hbefore).
  cbn [scan_nodes]. unfold scan_key at 1.
  unfold Py.contains, Py.dict_has, Py.item, Py.subscript.
  rewrite Himages. cbn [bindR Py.iter].
  rewrite (scan_entries_app good _ _ Hgood).
  cbn [scan_entries]. unfold take_entry, Py.item, Py.subscript.
  rewrite Hbad. reflexivity.
Qed.

Lemma resolver_raises_on_entry_without_subfolder_witness :
  process_output_files Scenario.finished Demo.config
    (VDict [("9", VDict [("images",
                          VList [VDict [("filename", VStr "a.png");
                                        ("subfolder", VStr "")]])]);
            ("12", VDict [("images",
                           VList [VDict [("filename", VStr "c.png");
                                         ("subfolder", VStr "frames")];
                                  VDict [("filename", VStr "d.png")]])])])
    (VStr "job-1") [] =
  (Raise (Exn KeyError "'subfolder'"), []).
Proof.
  apply (resolver_raises_on_entry_without_subfolder Scenario.finished Demo.config
           [("9", VDict [("images",
                          VList [VDict [("filename", VStr "a.png");
                                        ("subfolder", VStr "")]])])]
           [] "12"
           [("images",
             VList [VDict [("filename", VStr "c.png"); ("subfolder", VStr "frames")];
                    VDict [("filename", VStr "d.png")]])]
           [VDict [("filename", VStr "c.png"); ("subfolder", VStr "frames")]]
           [] [("filename", VStr "d.png")]);
    reflexivity.
Defined.

(** X18.  A fault of the bucket upload is not caught: when the chosen path
    is on disk and [rp_upload.upload_image] raises, the same fault leaves
    [process_output_files], the upload having been attempted once. *)
Theorem resolver_lets_bucket_fault_escape
        (w : World) (cfg : Config) (outputs job_id : value) (tr : trace)
        (output_file full : string) (e : exn) :
  scan_outputs outputs = Ok (VStr output_file, VStr full) ->
  full <> "" ->
  path_exists w full = true ->
  (path_exists w (OsPath.dirname full) = true ->
   exists names, listdir w (OsPath.dirname full) = Ok names) ->
  upload_image w job_id full = Raise e ->
  exists tr',
    process_output_files w cfg outputs job_id tr =
      (Raise e, EvUploadImage job_id full :: tr').
Proof.
  intros Hscan Hne Hfull Hdir Hraise.
  unfold process_output_files. unfold bind at 1. unfold lift at 1. rewrite Hscan.
  cbn [fst snd]. unfold bind at 1.
  rewrite (choose_path_reported w _ full tr Hne Hfull).
  unfold deliver, bind, lift, fspath, os_path_exists, os_path_getsize,
    rp_upload_upload_image.
  destruct (path_exists w (OsPath.dirname full)) eqn:Hthere.
  - destruct (Hdir eq_refl) as (names & Hnames).
    unfold os_listdir. rewrite Hnames, Hfull, Hraise. eexists; reflexivity.
  - unfold ret. rewrite Hfull, Hraise. eexists; reflexivity.
Qed.

Lemma resolver_lets_bucket_fault_escape_witness :
  exists tr',
    process_output_files Scenario.bucket_down Demo.config Scenario.outputs
      (VStr "job-1") [] =
      (Raise (Exn RuntimeError "bucket unreachable"),
       EvUploadImage (VStr "job-1") "/data/clips/b.gif" :: tr').
Proof.
  apply (resolver_lets_bucket_fault_escape Scenario.bucket_down Demo.config
           Scenario.outputs (VStr "job-1") [] "clips/b.gif" "/data/clips/b.gif").
  - reflexivity.
  - discriminate.
  - reflexivity.
  - intros _. exists []. reflexivity.
  - reflexivity.
Defined.

(** ** The stages together *)

(** X19.  The readiness test of the polling is weaker than what the
    resolver needs: a history record whose [outputs] is truthy but not a
    mapping (a non-empty list, say) ends the polling as ready, and the
    collection of the outputs then raises [AttributeError] at
    [outputs.items()] without any call to the outside; the handler calls it
    outside any [try]. *)
Theorem ready_outputs_need_not_be_a_mapping
        (w : World) (cfg : Config) (job job_id outputs : value)
        (prompt_id : string) (history record : list (string * value)) (tr : trace) :
  Py.dict_lookup prompt_id history = Some (VDict record) ->
  Py.dict_lookup "outputs" record = Some outputs ->
  Py.truthy outputs = true ->
  is_mapping outputs = false ->
  Py.item job "id" = Ok job_id ->
  history_ready (VStr prompt_id) (VDict history) = Ok true /\
  collect w cfg job (VDict history) (VStr prompt_id) tr =
    (Raise (Exn AttributeError
              ("'" ++ Py.type_name outputs ++ "' object has no attribute 'items'")),
     tr).
Proof.
  intros Hrecord Houtputs Htruthy Hmap Hid. split.
  - apply (history_ready_of_outputs prompt_id history record outputs);
      assumption.
  - unfold collect. unfold bind at 1. unfold lift at 1.
    unfold Py.subscript. rewrite Hrecord.
    unfold bind at 1. unfold lift at 1. unfold Py.get. rewrite Houtputs.
    unfold bind at 1. unfold lift at 1. rewrite Hid.
    unfold bind at 1. unfold process_output_files. unfold bind at 1. unfold lift at 1.
    destruct outputs; try discriminate; reflexivity.
Qed.

Lemma ready_outputs_need_not_be_a_mapping_witness :
  history_ready (VStr "p1") (VDict Scenario.listed_outputs) = Ok true /\
  collect Demo.idle Demo.config Scenario.plain_job (VDict Scenario.listed_outputs)
    (VStr "p1") [] =
    (Raise (Exn AttributeError "'list' object has no attribute 'items'"), []).
Proof.
  apply (ready_outputs_need_not_be_a_mapping Demo.idle Demo.config
           Scenario.plain_job (VStr "job-1") (VList [VStr "b.gif"]) "p1"
           Scenario.listed_outputs [("outputs", VList [VStr "b.gif"])] []);
    reflexivity.
Defined.

(** The resolver on a reported path that is on disk, with the trace it
    leaves: lookups on disk and the bucket upload, no request to the backend. *)
Lemma resolver_found
      (w : World) (cfg : Config) (outputs job_id : value) (tr : trace)
      (output_file full url : string) :
  scan_outputs outputs = Ok (VStr output_file, VStr full) ->
  full <> "" ->
  path_exists w full = true ->
  (path_exists w (OsPath.dirname full) = true ->
   exists names, listdir w (OsPath.dirname full) = Ok names) ->
  upload_image w job_id full = Ok url ->
  exists tr',
    process_output_files w cfg outputs job_id tr =
      (Ok (VDict (status_message "success" url)), EvUploadImage job_id full :: tr') /\
    posts (EvUploadImage job_id full :: tr') = posts tr.
Proof.
  intros Hscan Hne Hfull Hdir Hurl.
  unfold process_output_files. unfold bind at 1. unfold lift at 1. rewrite Hscan.
  cbn [fst snd]. unfold bind at 1.
  rewrite (choose_path_reported w _ full tr Hne Hfull).
  unfold deliver, bind, lift, fspath, os_path_exists, os_path_getsize,
    rp_upload_upload_image.
  destruct (path_exists w (OsPath.dirname full)) eqn:Hthere.
  - destruct (Hdir eq_refl) as (names & Hnames).
    unfold os_listdir. rewrite Hnames, Hfull, Hurl.
    eexists. split; [reflexivity |]. unfold posts. rewrite !count_cons. reflexivity.
  - unfold ret. rewrite Hfull, Hurl.
    eexists. split; [reflexivity |]. unfold posts. rewrite !count_cons. reflexivity.
Qed.

(** X20.  A job without images that runs through.  Let the input validate
    to a workflow without images, let the probe end either way and let the
    polling interval be a length that [time.sleep] accepts.  If the
    backend queues the workflow under [prompt_id], the history is not ready
    for the first [k] fetches ([k] within the budget) and is ready at the
    next with outputs whose last entry reports a full path that is on disk
    and whose directory, when it is on disk, can be listed,
    and the bucket upload of that path gives [url], then the handler returns
    [{"status": "success", "message": url, "refresh_worker": REFRESH_WORKER}],
    the bucket upload being the last thing it does, and no image was POSTed. *)
Theorem handler_delivers_the_reported_file
        (w : World) (cfg : Config)
        (job job_input job_id workflow queued prompt_id history record outputs : value)
        (up : bool) (tr tr1 : trace) (k : nat) (output_file full url : string) :
  Py.item job "input" = Ok job_input ->
  Py.item job "id" = Ok job_id ->
  validate_input w job_input =
    Ok (VDict [("workflow", workflow); ("images", VNone)], VNone) ->
  check_server w ("http://" ++ COMFY_HOST)
    COMFY_API_AVAILABLE_MAX_RETRIES COMFY_API_AVAILABLE_INTERVAL_MS tr = (Ok up, tr1) ->
  urlopen_post w prompt_url (VDict [("prompt", workflow)]) = Ok queued ->
  Py.item queued "prompt_id" = Ok prompt_id ->
  sleepable (COMFY_POLLING_INTERVAL_MS cfg) ->
  (k < Z.to_nat (COMFY_POLLING_MAX_RETRIES cfg))%nat ->
  (forall i, (i < k)%nat -> not_ready_at w prompt_id (fetches tr1 + i)) ->
  ready_at w prompt_id (fetches tr1 + k) history ->
  Py.subscript history prompt_id = Ok record ->
  Py.get record "outputs" = Ok outputs ->
  scan_outputs outputs = Ok (VStr output_file, VStr full) ->
  full <> "" ->
  path_exists w full = true ->
  (path_exists w (OsPath.dirname full) = true ->
   exists names, listdir w (OsPath.dirname full) = Ok names) ->
  upload_image w job_id full = Ok url ->
  exists tr',
    handler w cfg job tr =
      (Ok (VDict [("status", VStr "success"); ("message", VStr url);
                  ("refresh_worker", VBool (REFRESH_WORKER cfg))]),
       EvUploadImage job_id full :: tr') /\
    posts (EvUploadImage job_id full :: tr') = posts tr.
Proof.
  intros Hinput Hid Hvalid Hcheck Hqueue Hprompt Hinterval Hk Hbefore Hready
         Hrecord Houtputs Hscan Hne Hfull Hdir Hurl.
  rewrite (handler_after_check_server w cfg job job_input workflow VNone up tr tr1
             Hinput Hvalid Hcheck).
  unfold after_check. unfold bind at 1. unfold upload_images. cbn [Py.truthy negb].
  unfold ret at 1. unfold bind at 1. unfold lift at 1.
  cbn [upload_outcome Py.item Py.subscript Py.dict_lookup String.eqb Ascii.eqb
         Bool.eqb Py.eq].
  unfold run_workflow. unfold bind at 1.
  unfold submit, try_except. unfold bind at 1. unfold queue_workflow.
  fold prompt_url. rewrite Hqueue.
  unfold bind at 1. unfold lift at 1. rewrite Hprompt. unfold ret at 1.
  unfold bind at 1. unfold wait_for_outputs.
  set (tr2 := EvUrlopenPost prompt_url (VDict [("prompt", workflow)]) :: tr1).
  assert (Hsame : fetches tr2 = fetches tr1).
  { unfold tr2, fetches. rewrite count_cons. reflexivity. }
  destruct (poll_loop_first_ready w cfg prompt_id Hinterval k
              (Z.to_nat (COMFY_POLLING_MAX_RETRIES cfg)) tr2 history Hk)
    as (tr3 & Hpoll & Hfetches).
  { intros i Hi. rewrite Hsame. apply Hbefore, Hi. }
  { rewrite Hsame. exact Hready. }
  rewrite Hpoll.
  unfold collect. unfold bind at 1. unfold lift at 1. rewrite Hrecord.
  unfold bind at 1. unfold lift at 1. rewrite Houtputs.
  unfold bind at 1. unfold lift at 1. rewrite Hid.
  unfold bind at 1.
  destruct (resolver_found w cfg outputs job_id tr3 output_file full url
              Hscan Hne Hfull Hdir Hurl) as (tr' & Hrun & Hposts).
  rewrite Hrun. exists tr'. split; [reflexivity |].
  rewrite Hposts.
  destruct (poll_loop_events w cfg prompt_id _ tr2 _ tr3 Hpoll) as (new & -> & Hall & _).
  unfold posts. rewrite count_app.
  assert (Hnone : count is_requests_post new = 0%nat).
  { unfold count. clear Hpoll Hfetches Hrun Hposts.
    induction Hall as [|ev l Hev _ IH]; [reflexivity |].
    cbn. destruct Hev as [-> | ->]; exact IH. }
  rewrite Hnone. unfold tr2. rewrite count_cons. cbn.
  destruct (check_server_loop_events w ("http://" ++ COMFY_HOST)
              COMFY_API_AVAILABLE_INTERVAL_MS
              (Z.to_nat COMFY_API_AVAILABLE_MAX_RETRIES) tr (Ok up) tr1 Hcheck)
    as (probing & -> & Hprobing & _).
  rewrite count_app.
  assert (Hnone' : count is_requests_post probing = 0%nat).
  { unfold count. clear Hcheck Hbefore Hready Hsame Hpoll Hfetches Hrun Hposts Hnone.
    induction Hprobing as [|ev l Hev _ IH]; [reflexivity |].
    cbn. destruct Hev as [-> | ->]; exact IH. }
  rewrite Hnone'. reflexivity.
Qed.

Lemma handler_delivers_the_reported_file_witness :
  exists tr',
    handler Scenario.finished Demo.config Scenario.plain_job [] =
      (Ok (VDict [("status", VStr "success");
                  ("message", VStr "https://bucket.example//data/clips/b.gif");
                  ("refresh_worker", VBool false)]),
       EvUploadImage (VStr "job-1") "/data/clips/b.gif" :: tr') /\
    posts (EvUploadImage (VStr "job-1") "/data/clips/b.gif" :: tr') = posts [].
Proof.
  assert (Hinterval : sleepable (COMFY_POLLING_INTERVAL_MS Demo.config))
    by (unfold sleepable, SLEEP_MAX_MS; cbn; lia).
  assert (Hk : (1 < Z.to_nat (COMFY_POLLING_MAX_RETRIES Demo.config))%nat) by (cbn; lia).
  assert (Hne : "/data/clips/b.gif" <> "") by discriminate.
  apply (handler_delivers_the_reported_file Scenario.finished Demo.config
           Scenario.plain_job (VDict [("workflow", Demo.workflow)]) (VStr "job-1")
           Demo.workflow (VDict [("prompt_id", VStr "p1")]) (VStr "p1")
           (VDict [("p1", VDict [("outputs", Scenario.outputs)])])
           (VDict [("outputs", Scenario.outputs)]) Scenario.outputs
           true [] [EvRequestsGet "http://127.0.0.1:8188"] 1
           "clips/b.gif" "/data/clips/b.gif"
           "https://bucket.example//data/clips/b.gif"
           eq_refl eq_refl eq_refl eq_refl eq_refl eq_refl Hinterval Hk).
  - intros i Hi. assert (i = 0%nat) as -> by lia.
    exists (VDict []). split; reflexivity.
  - split; reflexivity.
  - reflexivity.
  - reflexivity.
  - reflexivity.
  - exact Hne.
  - reflexivity.
  - intros _. exists []. reflexivity.
  - reflexivity.
Defined.

(** X21.  When every image of a well-formed list is answered with status
    200, the handler goes on to submit the workflow: the stages after the
    availability check behave as the submission and what follows it
    ([run_workflow]) on the trace extended by one POST per image. *)
Theorem accepted_uploads_lead_to_submission
        (w : World) (cfg : Config) (job workflow : value) (images : list value)
        (answers : list answer) (tr : trace) :
  upload_answers w (posts tr) images = Some answers ->
  forallb accepted answers = true ->
  exists new,
    after_check w cfg job workflow (VList images) tr =
      run_workflow w cfg job workflow (new ++ tr)%list /\
    Forall (fun e => is_requests_post e = true) new /\
    List.length new = List.length images.
Proof.
  intros Hans Hall.
  destruct (upload_loop_prefix w images [] [] [] tr answers Hans)
    as (new & Hrun & Hposts & Hlen).
  rewrite app_nil_r in Hrun. cbn [upload_loop] in Hrun.
  destruct images as [|image rest].
  - exists []. split; [reflexivity |]. split; [constructor | reflexivity].
  - exists new. split; [| split; assumption].
    unfold after_check. unfold bind at 1. unfold upload_images.
    cbn [Py.truthy negb Py.iter].
    unfold bind at 1. unfold lift at 1. unfold bind at 1. rewrite Hrun.
    unfold ret at 1. cbn [fst snd app].
    destruct (all_accepted answers Hall) as (_ & ->). cbn [map].
    unfold ret at 1. unfold bind at 1. unfold lift at 1. reflexivity.
Qed.

Lemma accepted_uploads_lead_to_submission_witness :
  exists new,
    after_check Demo.idle Demo.config (Demo.job VNone) Demo.workflow
      (VList [Demo.image "a.png" "YWJj"]) [] =
      run_workflow Demo.idle Demo.config (Demo.job VNone) Demo.workflow
        (new ++ [])%list /\
    Forall (fun e => is_requests_post e = true) new /\
    List.length new = 1%nat.
Proof.
  apply (accepted_uploads_lead_to_submission Demo.idle Demo.config
           (Demo.job VNone) Demo.workflow [Demo.image "a.png" "YWJj"]
           [(VStr "a.png", (200, "{}"))] []);
    reflexivity.
Defined.

(** ** Encoding a file *)

Example b2a_abc : Base64Text.b2a [97; 98; 99] = "YWJj".
Proof. reflexivity. Qed.

Example b2a_a : Base64Text.b2a [97] = "YQ==".
Proof. reflexivity. Qed.

Example b2a_ab : Base64Text.b2a [97; 98] = "YWI=".
Proof. reflexivity. Qed.

Lemma in_octets (b : Z) : Base64Text.is_octet b -> In b Base64Text.octets.
Proof.
  intros Hb. unfold Base64Text.octets. rewrite <- (Z2Nat.id b) by (unfold Base64Text.is_octet in Hb; lia).
  apply in_map, in_seq. unfold Base64Text.is_octet in Hb. lia.
Qed.

Lemma in_sextets (d : Z) : 0 <= d < 64 -> In d Base64Text.sextets.
Proof.
  intros Hd. unfold Base64Text.sextets. rewrite <- (Z2Nat.id d) by lia.
  apply in_map, in_seq. lia.
Qed.

Lemma chars_checked : forallb Base64Text.char_ok Base64Text.sextets = true.
Proof. vm_compute. reflexivity. Qed.

Lemma char_decodes (d : Z) :
  0 <= d < 64 ->
  Base64.digit (Base64Text.char d) = Some d /\
  Ascii.eqb (Base64Text.char d) Base64.pad = false /\
  (nat_of_ascii (Base64Text.char d) <? 128)%nat = true.
Proof.
  intros Hd. pose proof chars_checked as Hall. rewrite forallb_forall in Hall.
  specialize (Hall d (in_sextets d Hd)). unfold Base64Text.char_ok in Hall.
  apply andb_prop in Hall. destruct Hall as (Hall & Hascii).
  apply andb_prop in Hall. destruct Hall as (Hdigit & Hpad).
  destruct (Base64.digit (Base64Text.char d)) as [d'|]; [| discriminate].
  apply Z.eqb_eq in Hdigit. subst d'.
  apply negb_true_iff in Hpad. repeat split; assumption.
Qed.

Lemma octets_checked : forallb Base64Text.octet_ok Base64Text.octets = true.
Proof. vm_compute. reflexivity. Qed.

Lemma pairs_checked :
  forallb (fun a => forallb (Base64Text.pair_ok a) Base64Text.octets) Base64Text.octets = true.
Proof. vm_compute. reflexivity. Qed.

Lemma octet_facts (a : Z) :
  Base64Text.is_octet a ->
  0 <= Z.shiftr a 2 < 64 /\
  0 <= Z.land a 63 < 64 /\
  Z.lor (Z.shiftl (Z.shiftr a 2) 2) (Z.land a 3) = a /\
  Z.lor (Z.shiftl (Z.shiftr a 4) 4) (Z.land a 15) = a /\
  Z.lor (Z.shiftl (Z.shiftr a 6) 6) (Z.land a 63) = a.
Proof.
  intros Ha. pose proof octets_checked as Hall. rewrite forallb_forall in Hall.
  specialize (Hall a (in_octets a Ha)). unfold Base64Text.octet_ok in Hall.
  repeat (apply andb_prop in Hall; destruct Hall as (Hall & ?)).
  repeat match goal with
         | H : (_ =? _) = true |- _ => apply Z.eqb_eq in H
         | H : (_ <=? _) = true |- _ => apply Z.leb_le in H
         | H : (_ <? _) = true |- _ => apply Z.ltb_lt in H
         end.
  repeat split; assumption.
Qed.

Lemma pair_facts (a b : Z) :
  Base64Text.is_octet a -> Base64Text.is_octet b ->
  0 <= Base64Text.second_sextet a b < 64 /\
  Z.shiftr (Base64Text.second_sextet a b) 4 = Z.land a 3 /\
  Z.land (Base64Text.second_sextet a b) 15 = Z.shiftr b 4 /\
  0 <= Base64Text.third_sextet a b < 64 /\
  Z.shiftr (Base64Text.third_sextet a b) 2 = Z.land a 15 /\
  Z.land (Base64Text.third_sextet a b) 3 = Z.shiftr b 6.
Proof.
  intros Ha Hb. pose proof pairs_checked as Hall. rewrite forallb_forall in Hall.
  specialize (Hall a (in_octets a Ha)). rewrite forallb_forall in Hall.
  specialize (Hall b (in_octets b Hb)). unfold Base64Text.pair_ok in Hall.
  repeat (apply andb_prop in Hall; destruct Hall as (Hall & ?)).
  repeat match goal with
         | H : (_ =? _) = true |- _ => apply Z.eqb_eq in H
         | H : (_ <=? _) = true |- _ => apply Z.leb_le in H
         | H : (_ <? _) = true |- _ => apply Z.ltb_lt in H
         end.
  repeat split; assumption.
Qed.

(** The decoder on a character of the alphabet, at each position of the
    quad. *)
Lemma a2b_char0 (d : Z) (rest : string) (leftchar pads : Z) (out : list Z) :
  0 <= d < 64 ->
  Base64.a2b (String (Base64Text.char d) rest) 0 leftchar pads out =
  Base64.a2b rest 1 d 0 out.
Proof.
  intros Hd. destruct (char_decodes d Hd) as (Hdigit & Hpad & _).
  cbn [Base64.a2b]. rewrite Hpad, Hdigit. reflexivity.
Qed.

Lemma a2b_char1 (d : Z) (rest : string) (leftchar pads : Z) (out : list Z) :
  0 <= d < 64 ->
  Base64.a2b (String (Base64Text.char d) rest) 1 leftchar pads out =
  Base64.a2b rest 2 (Z.land d 15) 0
    (Z.lor (Z.shiftl leftchar 2) (Z.shiftr d 4) :: out).
Proof.
  intros Hd. destruct (char_decodes d Hd) as (Hdigit & Hpad & _).
  cbn [Base64.a2b]. rewrite Hpad, Hdigit. reflexivity.
Qed.

Lemma a2b_char2 (d : Z) (rest : string) (leftchar pads : Z) (out : list Z) :
  0 <= d < 64 ->
  Base64.a2b (String (Base64Text.char d) rest) 2 leftchar pads out =
  Base64.a2b rest 3 (Z.land d 3) 0
    (Z.lor (Z.shiftl leftchar 4) (Z.shiftr d 2) :: out).
Proof.
  intros Hd. destruct (char_decodes d Hd) as (Hdigit & Hpad & _).
  cbn [Base64.a2b]. rewrite Hpad, Hdigit. reflexivity.
Qed.

Lemma a2b_char3 (d : Z) (rest : string) (leftchar pads : Z) (out : list Z) :
  0 <= d < 64 ->
  Base64.a2b (String (Base64Text.char d) rest) 3 leftchar pads out =
  Base64.a2b rest 0 0 0 (Z.lor (Z.shiftl leftchar 6) d :: out).
Proof.
  intros Hd. destruct (char_decodes d Hd) as (Hdigit & Hpad & _).
  cbn [Base64.a2b]. rewrite Hpad, Hdigit. reflexivity.
Qed.

Lemma zero_is_octet : Base64Text.is_octet 0.
Proof. unfold Base64Text.is_octet. lia. Qed.

Lemma second_sextet_alone (a : Z) :
  Z.shiftl (Z.land a 3) 4 = Base64Text.second_sextet a 0.
Proof.
  unfold Base64Text.second_sextet. rewrite Z.shiftr_0_l, Z.lor_0_r. reflexivity.
Qed.

Lemma third_sextet_alone (b : Z) :
  Z.shiftl (Z.land b 15) 2 = Base64Text.third_sextet b 0.
Proof.
  unfold Base64Text.third_sextet. rewrite Z.shiftr_0_l, Z.lor_0_r. reflexivity.
Qed.

(** The first two characters of a group give back its first byte. *)
Lemma a2b_first_byte (a b : Z) (rest : string) (leftchar pads : Z) (out : list Z) :
  Base64Text.is_octet a -> Base64Text.is_octet b ->
  Base64.a2b
    (String (Base64Text.char (Z.shiftr a 2))
       (String (Base64Text.char (Base64Text.second_sextet a b)) rest))
    0 leftchar pads out =
  Base64.a2b rest 2 (Z.shiftr b 4) 0 (a :: out).
Proof.
  intros Ha Hb.
  destruct (octet_facts a Ha) as (Hd0 & _ & Ha2 & _ & _).
  destruct (pair_facts a b Ha Hb) as (Hd1 & Hhigh & Hlow & _).
  rewrite (a2b_char0 _ _ _ _ _ Hd0), (a2b_char1 _ _ _ _ _ Hd1).
  rewrite Hhigh, Hlow, Ha2. reflexivity.
Qed.

Lemma a2b_second_byte (b c : Z) (rest : string) (pads : Z) (out : list Z) :
  Base64Text.is_octet b -> Base64Text.is_octet c ->
  Base64.a2b (String (Base64Text.char (Base64Text.third_sextet b c)) rest)
    2 (Z.shiftr b 4) pads out =
  Base64.a2b rest 3 (Z.shiftr c 6) 0 (b :: out).
Proof.
  intros Hb Hc.
  destruct (octet_facts b Hb) as (_ & _ & _ & Hb4 & _).
  destruct (pair_facts b c Hb Hc) as (_ & _ & _ & Hd2 & Hhigh & Hlow).
  rewrite (a2b_char2 _ _ _ _ _ Hd2). rewrite Hhigh, Hlow, Hb4. reflexivity.
Qed.

Lemma a2b_third_byte (c : Z) (rest : string) (pads : Z) (out : list Z) :
  Base64Text.is_octet c ->
  Base64.a2b (String (Base64Text.char (Z.land c 63)) rest) 3 (Z.shiftr c 6) pads out =
  Base64.a2b rest 0 0 0 (c :: out).
Proof.
  intros Hc. destruct (octet_facts c Hc) as (_ & Hd3 & _ & _ & Hc6).
  rewrite (a2b_char3 _ _ _ _ _ Hd3). rewrite Hc6. reflexivity.
Qed.

Lemma a2b_b2a (n : nat) :
  forall bytes out,
    (List.length bytes <= n)%nat ->
    Forall Base64Text.is_octet bytes ->
    Base64.a2b (Base64Text.b2a bytes) 0 0 0 out = Ok (rev out ++ bytes)%list.
Proof.
  induction n as [|n IH]; intros bytes out Hlen Hbytes.
  - destruct bytes; [| cbn in Hlen; lia]. cbn. rewrite app_nil_r. reflexivity.
  - destruct bytes as [|a [|b [|c rest]]].
    + cbn. rewrite app_nil_r. reflexivity.
    + inversion Hbytes as [|? ? Ha _]; subst.
      cbn [Base64Text.b2a]. rewrite second_sextet_alone.
      rewrite (a2b_first_byte a 0 _ _ _ _ Ha zero_is_octet). reflexivity.
    + inversion Hbytes as [|? ? Ha Hrest]; subst.
      inversion Hrest as [|? ? Hb _]; subst.
      cbn [Base64Text.b2a]. rewrite third_sextet_alone.
      fold (Base64Text.second_sextet a b).
      rewrite (a2b_first_byte a b _ _ _ _ Ha Hb).
      rewrite (a2b_second_byte b 0 _ _ _ Hb zero_is_octet).
      cbn. rewrite <- app_assoc. reflexivity.
    + inversion Hbytes as [|? ? Ha Hrest]; subst.
      inversion Hrest as [|? ? Hb Hrest']; subst.
      inversion Hrest' as [|? ? Hc Hrest'']; subst.
      cbn [Base64Text.b2a].
      fold (Base64Text.second_sextet a b). fold (Base64Text.third_sextet b c).
      rewrite (a2b_first_byte a b _ _ _ _ Ha Hb).
      rewrite (a2b_second_byte b c _ _ _ Hb Hc).
      rewrite (a2b_third_byte c _ _ _ Hc).
      rewrite IH; [| cbn in Hlen; lia | exact Hrest''].
      cbn [rev]. rewrite <- !app_assoc. reflexivity.
Qed.

Lemma b2a_is_ascii (n : nat) :
  forall bytes,
    (List.length bytes <= n)%nat ->
    Forall Base64Text.is_octet bytes ->
    Base64.is_ascii (Base64Text.b2a bytes) = true.
Proof.
  induction n as [|n IH]; intros bytes Hlen Hbytes.
  - destruct bytes; [reflexivity | cbn in Hlen; lia].
  - destruct bytes as [|a [|b [|c rest]]].
    + reflexivity.
    + inversion Hbytes as [|? ? Ha _]; subst.
      destruct (octet_facts a Ha) as (Hd0 & _).
      destruct (pair_facts a 0 Ha zero_is_octet) as (Hd1 & _).
      cbn [Base64Text.b2a Base64.is_ascii]. rewrite second_sextet_alone.
      rewrite (proj2 (proj2 (char_decodes _ Hd0))),
        (proj2 (proj2 (char_decodes _ Hd1))).
      reflexivity.
    + inversion Hbytes as [|? ? Ha Hrest]; subst.
      inversion Hrest as [|? ? Hb _]; subst.
      destruct (octet_facts a Ha) as (Hd0 & _).
      destruct (pair_facts a b Ha Hb) as (Hd1 & _).
      destruct (pair_facts b 0 Hb zero_is_octet) as (_ & _ & _ & Hd2 & _).
      cbn [Base64Text.b2a Base64.is_ascii]. rewrite third_sextet_alone.
      fold (Base64Text.second_sextet a b).
      rewrite (proj2 (proj2 (char_decodes _ Hd0))),
        (proj2 (proj2 (char_decodes _ Hd1))),
        (proj2 (proj2 (char_decodes _ Hd2))).
      reflexivity.
    + inversion Hbytes as [|? ? Ha Hrest]; subst.
      inversion Hrest as [|? ? Hb Hrest']; subst.
      inversion Hrest' as [|? ? Hc Hrest'']; subst.
      destruct (octet_facts a Ha) as (Hd0 & _).
      destruct (octet_facts c Hc) as (_ & Hd3 & _).
      destruct (pair_facts a b Ha Hb) as (Hd1 & _).
      destruct (pair_facts b c Hb Hc) as (_ & _ & _ & Hd2 & _).
      cbn [Base64Text.b2a Base64.is_ascii].
      fold (Base64Text.second_sextet a b). fold (Base64Text.third_sextet b c).
      rewrite (proj2 (proj2 (char_decodes _ Hd0))),
        (proj2 (proj2 (char_decodes _ Hd1))),
        (proj2 (proj2 (char_decodes _ Hd2))),
        (proj2 (proj2 (char_decodes _ Hd3))).
      cbn [andb]. apply IH; [cbn in Hlen; lia | exact Hrest''].
Qed.

(** X22.  What [base64_encode] returns for a file can be sent back as the
    [image] of a job: the text decodes, with the decoder that
    [upload_images] applies to it, to exactly the bytes of the file. *)
Theorem base64_encode_decodes_to_the_file
        (read : string -> result (list Z)) (img_path : string) (bytes : list Z) :
  read img_path = Ok bytes ->
  Forall Base64Text.is_octet bytes ->
  exists text,
    base64_encode read img_path = Ok text /\
    Base64.b64decode (VStr text) = Ok bytes.
Proof.
  intros Hread Hbytes. exists (Base64Text.b2a bytes). split.
  - unfold base64_encode. rewrite Hread. reflexivity.
  - unfold Base64.b64decode.
    rewrite (b2a_is_ascii (List.length bytes) bytes (le_n _) Hbytes).
    apply (a2b_b2a (List.length bytes) bytes [] (le_n _) Hbytes).
Qed.

Lemma base64_encode_decodes_to_the_file_witness :
  exists text,
    base64_encode (fun _ => Ok [137; 80; 78; 71; 13]) "/comfyui/output/a.png" = Ok text /\
    Base64.b64decode (VStr text) = Ok [137; 80; 78; 71; 13].
Proof.
  apply (base64_encode_decodes_to_the_file
           (fun _ => Ok [137; 80; 78; 71; 13]) "/comfyui/output/a.png").
  - reflexivity.
  - repeat constructor; unfold Base64Text.is_octet; lia.
Defined.
